(** * Monkey Stars bot: the ledger and eligibility handlers

    A shallow embedding of [config.py], [database.py] and the handlers of
    [bot.py] that touch balances, the click cooldown, referral commissions,
    withdrawals, registration and the sponsor-subscription gate.

    - Amounts are Python floats: IEEE-754 binary64, Rocq's primitive [float].
    - Identifiers and timestamps are Python ints: [Z].
    - The Supabase store is a record of tables.  Every method of [Database]
      wraps its body in [try/except] and turns an exception of the client into
      a logged error and a default value, so a method is a state transformer
      that also consumes a schedule of transport failures, one entry per
      request sent, and counts the errors it logs.
    - The handlers are coroutines, but the store client is synchronous and no
      handler awaits between its first read of the store and its last write
      to it: the event loop cannot switch to another handler in between, so a
      handler's store requests form one uninterrupted sequence.
    - Of a handler's answer only its kind and the values it shows are kept;
      the Telegram calls, the admin commands and the keyboards are left
      out. *)

From Stdlib Require Import Floats ZArith Zpower Lia.
From stdpp Require Import relations gmap strings list pretty.

Set Warnings "-inexact-float".
Local Open Scope Z_scope.

(** ** config.py *)

Module Config.
Definition CLICK_REWARD : float := 0.2%float.
Definition CLICK_COOLDOWN : Z := 3600.
Definition REFERRAL_REWARD_REFERRER : float := 3.0%float.
Definition REFERRAL_REWARD_REFEREE : float := 2.0%float.
Definition CLICK_REFERRAL_PERCENT : Z := 10.
Definition WITHDRAWAL_AMOUNTS : list Z := [15; 25; 50; 100].
End Config.

(** ** Python values *)

(** [float(n)] for an int that a double holds exactly (below 2^53 in
    magnitude); the configuration constants are the only ints converted. *)
Definition float_of_int (n : Z) : float :=
  match n with
  | Z0 => PrimFloat.zero
  | Zpos _ => PrimFloat.of_uint63 (Uint63.of_Z n)
  | Zneg _ => PrimFloat.opp (PrimFloat.of_uint63 (Uint63.of_Z (- n)))
  end.

(** [a / b] on ints is true division: the correctly rounded quotient. *)
Definition int_truediv (a b : Z) : float :=
  PrimFloat.div (float_of_int a) (float_of_int b).

(** Truth value of an optional int ([None] and [0] are falsy). *)
Definition truthy_int (o : option Z) : bool :=
  match o with
  | Some z => negb (z =? 0)
  | None => false
  end.

(** [s or t] on an optional string ([None] and [""] are falsy). *)
Definition str_or (s : option string) (t : string) : string :=
  match s with
  | Some (String c r) => String c r
  | _ => t
  end.

(** A number survives the JSON body of a store request only when it is
    finite: [NaN] and the infinities have no JSON spelling, the request is
    refused and the client raises. *)
Definition json_number (x : float) : bool := PrimFloat.is_finite x.

(** ** The tables *)

Record user := User {
  user_id : Z;
  username : string;
  referrer_id : option Z;
  created_at : Z;
  balance : float;
  last_click : option Z
}.

Record transaction := Transaction {
  tx_user_id : Z;
  tx_amount : float;
  tx_type : string;
  tx_description : string;
  tx_created_at : Z
}.

Record withdrawal := Withdrawal {
  wd_id : Z;
  wd_user_id : Z;
  wd_amount : float;
  wd_status : string;
  wd_created_at : Z
}.

Record sponsor_status := SponsorStatus {
  is_subscribed : bool;
  last_check : Z
}.

(** A row of the [get_user_sponsors_status] result; [row_is_subscribed] is
    what [row.get('is_subscribed', False)] reads, [None] standing for an
    absent key or a null. *)
Record status_row := StatusRow {
  row_sponsor_id : Z;
  row_is_subscribed : option bool
}.

(** The tables; [users] is keyed by [user_id], [user_sponsors] by user and
    sponsor, [sponsors] lists the ids of the configured sponsors, and
    [withdrawals_seq] is the last id the [withdrawals] table handed out. *)
Record database := Database {
  users : gmap Z user;
  sponsors : list Z;
  user_sponsors : gmap (Z * Z) sponsor_status;
  transactions : list transaction;
  withdrawals : list withdrawal;
  withdrawals_seq : Z
}.

Definition set_users (f : gmap Z user → gmap Z user) (d : database) : database :=
  Database (f (users d)) (sponsors d) (user_sponsors d)
           (transactions d) (withdrawals d) (withdrawals_seq d).

Definition set_balance (b : float) (u : user) : user :=
  User (user_id u) (username u) (referrer_id u) (created_at u) b (last_click u).

Definition set_last_click (t : Z) (u : user) : user :=
  User (user_id u) (username u) (referrer_id u) (created_at u) (balance u) (Some t).

(** ** Store requests *)

(** The state a handler runs in: the store, the failures still to come and
    the number of [logger.error] calls so far.  The head of [faults] says
    whether the next request raises; an exhausted schedule means every
    further request succeeds.

    Time is an argument: a method that stamps a row takes the reading of
    the clock as [now], and a handler hands the one reading of its run to
    every method it calls.  The program reads the clock anew in each
    method, so the [created_at] stamps written during one run can differ
    by the seconds the run takes; no statement below rests on their being
    equal. *)
Record world := World {
  store : database;
  faults : list bool;
  errors : nat
}.

Definition M (A : Type) : Type := world → A * world.

Definition ret {A} (a : A) : M A := λ w, (a, w).

Definition bind {A B} (m : M A) (k : A → M B) : M B :=
  λ w, let (a, w') := m w in k a w'.

Notation "'let*' x ':=' m 'in' k" := (bind m (λ x, k))
  (at level 10, x name, m at level 100, k at level 200).
Notation "m ';;' k" := (bind m (λ _, k))
  (at level 100, k at level 200, right associativity).

(** One [.execute()]: [true] when the request raises. *)
Definition execute : M bool :=
  λ w, match faults w with
       | [] => (false, w)
       | f :: fs => (f, World (store w) fs (errors w))
       end.

Definition read_store : M database := λ w, (store w, w).

Definition write_store (d : database) : M unit :=
  λ w, (tt, World d (faults w) (errors w)).

(** [logger.error(...)] in an [except] branch. *)
Definition log_error : M unit :=
  λ w, (tt, World (store w) (faults w) (S (errors w))).

(** ** database.py *)

Definition get_user (uid : Z) : M (option user) :=
  let* raised := execute in
  if raised then log_error ;; ret None
  else let* d := read_store in ret (users d !! uid).

(** [upsert(user_data, on_conflict="user_id")] is PostgREST's
    merge-duplicates resolution: [INSERT ... ON CONFLICT (user_id) DO UPDATE]
    assigning every column of the payload.  The payload names all six
    columns, so a conflicting row is replaced by the payload. *)
Definition create_user (uid : Z) (name : option string) (referrer : option Z)
    (now : Z) : M bool :=
  let user_data :=
    User uid (str_or name ("user_" +:+ pretty uid)) referrer now 0.0%float None in
  let* raised := execute in
  if raised then log_error ;; ret false
  else
    let* d := read_store in
    write_store (set_users (insert uid user_data) d) ;;
    ret true.

Definition update_balance (uid : Z) (amount : float) : M bool :=
  let* user := get_user uid in
  match user with
  | None => ret false
  | Some u =>
    let new_balance := (balance u + amount)%float in
    let* raised := execute in
    if raised || negb (json_number new_balance) then log_error ;; ret false
    else
      let* d := read_store in
      write_store (set_users (alter (set_balance new_balance) uid) d) ;;
      ret (bool_decide (is_Some (users d !! uid)))
  end.

Definition update_last_click (uid : Z) (timestamp : Z) : M bool :=
  let* raised := execute in
  if raised then log_error ;; ret false
  else
    let* d := read_store in
    write_store (set_users (alter (set_last_click timestamp) uid) d) ;;
    ret (bool_decide (is_Some (users d !! uid))).

Definition get_sponsors : M (list Z) :=
  let* raised := execute in
  if raised then log_error ;; ret []
  else let* d := read_store in ret (sponsors d).

Definition update_user_sponsor_status (uid sid : Z) (flag : bool) (now : Z)
    : M bool :=
  let* raised := execute in
  if raised then log_error ;; ret false
  else
    let* d := read_store in
    write_store (Database (users d) (sponsors d)
                   (<[(uid, sid) := SponsorStatus flag now]> (user_sponsors d))
                   (transactions d) (withdrawals d) (withdrawals_seq d)) ;;
    ret true.

(** Modelled from the spec: the stored procedure [get_user_sponsors_status],
    which the sources call by name only.  It yields one row per configured
    sponsor carrying the flag recorded for the user, and no flag where none
    is recorded. *)
Definition rpc_get_user_sponsors_status (d : database) (uid : Z)
    : list status_row :=
  map (λ sid, StatusRow sid (is_subscribed <$> user_sponsors d !! (uid, sid)))
      (sponsors d).

Definition get_user_sponsors_status (uid : Z) : M (list status_row) :=
  let* raised := execute in
  if raised then log_error ;; ret []
  else let* d := read_store in ret (rpc_get_user_sponsors_status d uid).

Definition add_transaction (uid : Z) (amount : float) (type description : string)
    (now : Z) : M bool :=
  let* raised := execute in
  if raised || negb (json_number amount) then log_error ;; ret false
  else
    let* d := read_store in
    write_store (Database (users d) (sponsors d) (user_sponsors d)
                   (transactions d ++ [Transaction uid amount type description now])
                   (withdrawals d) (withdrawals_seq d)) ;;
    ret true.

Definition create_withdrawal (uid : Z) (amount : float) (now : Z)
    : M (option withdrawal) :=
  let* raised := execute in
  if raised || negb (json_number amount) then log_error ;; ret None
  else
    let* d := read_store in
    let row := Withdrawal (withdrawals_seq d + 1) uid amount "pending" now in
    write_store (Database (users d) (sponsors d) (user_sponsors d)
                   (transactions d) (withdrawals d ++ [row]) (withdrawals_seq d + 1)) ;;
    ret (Some row).

Section Handlers.

(** The stored procedure [get_active_referrals] is opaque to the program:
    any function of the tables. *)
Variable rpc_get_active_referrals : database → Z → list Z.

Definition get_user_referrals (uid : Z) : M (Z * Z) :=
  let* raised := execute in
  if raised then log_error ;; ret (0, 0)
  else
    let* d := read_store in
    let total :=
      Z.of_nat (size (filter (λ kv, referrer_id kv.2 = Some uid) (users d))) in
    let* raised := execute in
    if raised then log_error ;; ret (0, 0)
    else ret (total, Z.of_nat (length (rpc_get_active_referrals d uid))).

(** ** bot.py *)

(** The loop of [check_subscriptions] over the status rows. *)
Fixpoint all_subscribed (rows : list status_row) : bool :=
  match rows with
  | [] => true
  | sponsor :: rest =>
    if negb (default false (row_is_subscribed sponsor)) then false
    else all_subscribed rest
  end.

(** [get_user_sponsors_status] raises nothing, so the [except] branch of
    [check_subscriptions], which answers [False], is never taken. *)
Definition check_subscriptions (uid : Z) : M bool :=
  let* sponsors_status := get_user_sponsors_status uid in
  match sponsors_status with
  | [] => ret true
  | _ => ret (all_subscribed sponsors_status)
  end.

Inductive menu_view :=
  | MainMenu (shown_balance : float)
  | SponsorsMessage (channels : list Z).

(** [show_main_menu(message)] shows the balance of [message.from_user]:
    the user for a command, the bot for the message a button hangs on. *)
Definition show_main_menu (sender : Z) : M menu_view :=
  let* user := get_user sender in
  ret (MainMenu (from_option balance 0.0%float user)).

Definition show_sponsors_message (sender : Z) (uid : Z) : M menu_view :=
  let* sponsors := get_sponsors in
  match sponsors with
  | [] => show_main_menu sender
  | _ => ret (SponsorsMessage sponsors)
  end.

(** [/start]: [start_arg] is [int(message.text.split()[1])], [None] when the
    text has no second word or the word is no int. *)
Definition cmd_start (uid : Z) (tg_username : option string) (first_name : string)
    (start_arg : option Z) (now : Z) : M menu_view :=
  let username := str_or tg_username first_name in
  let referrer_id :=
    match start_arg with
    | Some r => if r =? uid then None else Some r
    | None => None
    end in
  create_user uid (Some username) referrer_id now ;;
  let* subscribed := check_subscriptions uid in
  if negb subscribed then show_sponsors_message uid uid
  else show_main_menu uid.

(** The loop of [handle_check_subscriptions] over the sponsors. *)
Fixpoint mark_subscribed (uid : Z) (sponsors : list Z) (now : Z) : M unit :=
  match sponsors with
  | [] => ret tt
  | sponsor :: rest =>
    update_user_sponsor_status uid sponsor true now ;;
    mark_subscribed uid rest now
  end.

(** The button of the sponsors message: every sponsor is recorded as
    subscribed, no check is made.  [bot_id] is the sender of the message
    the button hangs on. *)
Definition handle_check_subscriptions (uid bot_id : Z) (now : Z) : M menu_view :=
  let* sponsors := get_sponsors in
  mark_subscribed uid sponsors now ;;
  show_main_menu bot_id.

Inductive earn_reply :=
  | EarnNotSubscribed (view : menu_view)
  | EarnMenu.

Definition handle_earn (uid bot_id : Z) : M earn_reply :=
  let* subscribed := check_subscriptions uid in
  if negb subscribed then
    let* view := show_sponsors_message bot_id uid in ret (EarnNotSubscribed view)
  else ret EarnMenu.

Inductive click_reply :=
  | ClickNotSubscribed
  | ClickNoUser
  | ClickCooldown (remaining : Z)
  | ClickRewarded (reward shown_balance : float)
  | ClickRaised.

(** The part of [handle_click] behind the cooldown check: the reward, the
    referral bonus and the refreshed message.  [user] is the row read before
    the check.  When the last read finds no row, [user['balance']] raises
    and the handler ends in an unhandled [TypeError]. *)
Definition credit_click (uid : Z) (tg_username : option string) (user : user)
    (current_time : Z) : M click_reply :=
  let reward := Config.CLICK_REWARD in
  update_balance uid reward ;;
  update_last_click uid current_time ;;
  add_transaction uid reward "click" "Кликер" current_time ;;
  (if truthy_int (referrer_id user) then
     let referrer := default 0 (referrer_id user) in
     let referral_bonus :=
       (reward * int_truediv Config.CLICK_REFERRAL_PERCENT 100)%float in
     update_balance referrer referral_bonus ;;
     add_transaction referrer referral_bonus "referral_income"
       ("10% от клика пользователя " +:+ str_or tg_username (pretty uid))
       current_time ;;
     ret tt
   else ret tt) ;;
  let* user := get_user uid in
  match user with
  | Some u => ret (ClickRewarded reward (balance u))
  | None => ret ClickRaised
  end.

Definition handle_click (uid : Z) (tg_username : option string) (now : Z)
    : M click_reply :=
  let* subscribed := check_subscriptions uid in
  if negb subscribed then ret ClickNotSubscribed
  else
    let* user := get_user uid in
    match user with
    | None => ret ClickNoUser
    | Some u =>
      let current_time := now in
      let last_click := last_click u in
      if truthy_int last_click
         && (current_time - default 0 last_click <? Config.CLICK_COOLDOWN) then
        let remaining :=
          Config.CLICK_COOLDOWN - (current_time - default 0 last_click) in
        ret (ClickCooldown remaining)
      else credit_click uid tg_username u current_time
    end.

Inductive withdraw_menu_reply :=
  | WithdrawMenuNotSubscribed
  | WithdrawMenu (amounts : list Z).

Definition handle_withdraw_menu (uid : Z) : M withdraw_menu_reply :=
  let* subscribed := check_subscriptions uid in
  if negb subscribed then ret WithdrawMenuNotSubscribed
  else ret (WithdrawMenu Config.WITHDRAWAL_AMOUNTS).

Inductive withdraw_reply :=
  | WithdrawBadAmount
  | WithdrawNoUser
  | WithdrawInsufficientBalance (current : float)
  | WithdrawInsufficientReferrals (active : Z)
  | WithdrawCreateFailed
  | WithdrawCreated (id : Z) (amount : float).

(** [amount_arg] is [float(callback.data.split("_")[1])] on a payload
    [withdraw_<x>], [None] when the conversion raises.  Every double is the
    value of some payload.  The message to the operator that ends the
    handler touches no table and its failure is ignored. *)
Definition handle_withdraw (uid : Z) (amount_arg : option float) (now : Z)
    : M withdraw_reply :=
  match amount_arg with
  | None => ret WithdrawBadAmount
  | Some amount =>
    let* user := get_user uid in
    match user with
    | None => ret WithdrawNoUser
    | Some u =>
      if (balance u <? amount)%float then
        ret (WithdrawInsufficientBalance (balance u))
      else
        let* refs := get_user_referrals uid in
        let active_ref := refs.2 in
        if active_ref <? 3 then ret (WithdrawInsufficientReferrals active_ref)
        else
          let* withdrawal := create_withdrawal uid amount now in
          match withdrawal with
          | None => ret WithdrawCreateFailed
          | Some w =>
            update_balance uid (- amount)%float ;;
            add_transaction uid (- amount)%float "withdrawal"
              ("Вывод #" +:+ pretty (wd_id w)) now ;;
            ret (WithdrawCreated (wd_id w) amount)
          end
    end
  end.

Inductive profile_reply :=
  | ProfileNotSubscribed
  | ProfileNoUser
  | Profile (shown_balance : float) (total_ref active_ref : Z)
            (next_click : option Z).

Definition handle_profile (uid : Z) (now : Z) : M profile_reply :=
  let* subscribed := check_subscriptions uid in
  if negb subscribed then ret ProfileNotSubscribed
  else
    let* user := get_user uid in
    match user with
    | None => ret ProfileNoUser
    | Some u =>
      let* refs := get_user_referrals uid in
      let last_click := last_click u in
      let current_time := now in
      let next_click :=
        if truthy_int last_click then
          let time_passed := current_time - default 0 last_click in
          if time_passed <? Config.CLICK_COOLDOWN
          then Some (Config.CLICK_COOLDOWN - time_passed)
          else None
        else None in
      ret (Profile (balance u) refs.1 refs.2 next_click)
    end.

Inductive referral_reply :=
  | ReferralNotSubscribed
  | Referral (total_ref active_ref : Z).

Definition handle_referral (uid : Z) : M referral_reply :=
  let* subscribed := check_subscriptions uid in
  if negb subscribed then ret ReferralNotSubscribed
  else
    let* refs := get_user_referrals uid in
    ret (Referral refs.1 refs.2).

End Handlers.


(** ** bot.py: the helpers of the answers *)

(** [format_time(seconds)]; [//] and [%] are floor division and its
    remainder, [f"{n}"] the decimal spelling of an int. *)
Definition format_time (seconds : Z) : string :=
  if seconds <? 60 then pretty seconds +:+ " сек"
  else if seconds <? 3600 then
    let minutes := seconds / 60 in
    let secs := seconds mod 60 in
    pretty minutes +:+ " мин " +:+ pretty secs +:+ " сек"
  else
    let hours := seconds / 3600 in
    let minutes := (seconds mod 3600) / 60 in
    pretty hours +:+ " ч " +:+ pretty minutes +:+ " мин".

(** ** The effects of the writing methods *)

(** The store after [update_balance uid amount] went through for row [u]. *)
Definition credited (uid : Z) (u : user) (amount : float) (d : database) : database :=
  set_users (alter (set_balance (balance u + amount)%float) uid) d.

(** The store after [update_last_click uid timestamp] went through. *)
Definition clicked (uid : Z) (timestamp : Z) (d : database) : database :=
  set_users (alter (set_last_click timestamp) uid) d.

(** The store after [add_transaction] inserted [t]. *)
Definition logged (t : transaction) (d : database) : database :=
  Database (users d) (sponsors d) (user_sponsors d) (transactions d ++ [t])
           (withdrawals d) (withdrawals_seq d).

(** The store after [create_withdrawal] inserted [row]. *)
Definition requested (row : withdrawal) (d : database) : database :=
  Database (users d) (sponsors d) (user_sponsors d) (transactions d)
           (withdrawals d ++ [row]) (withdrawals_seq d + 1).

(** The bonus [handle_click] computes for the referrer. *)
Definition referral_bonus : float :=
  (Config.CLICK_REWARD * int_truediv Config.CLICK_REFERRAL_PERCENT 100)%float.

Definition click_entry (uid now : Z) : transaction :=
  Transaction uid Config.CLICK_REWARD "click" "Кликер" now.

Definition referral_entry (referrer uid : Z) (tg_username : option string)
    (now : Z) : transaction :=
  Transaction referrer referral_bonus "referral_income"
    ("10% от клика пользователя " +:+ str_or tg_username (pretty uid)) now.

(** The store after the reward of a click went through for row [u]: the
    balance, the click time and the ledger entry. *)
Definition rewarded (uid : Z) (u : user) (now : Z) (d : database) : database :=
  logged (click_entry uid now)
    (clicked uid now (credited uid u Config.CLICK_REWARD d)).

(** The store after the referral part of a click went through: nothing for
    a falsy referrer, the entry alone for a referrer without a row. *)
Definition commissioned (uid : Z) (tg_username : option string)
    (referrer : option Z) (now : Z) (d : database) : database :=
  if truthy_int referrer then
    let r := default 0 referrer in
    match users d !! r with
    | Some ru =>
        logged (referral_entry r uid tg_username now)
          (credited r ru referral_bonus d)
    | None => logged (referral_entry r uid tg_username now) d
    end
  else d.

(** ** Doubles *)

(** The values [0 <= x] holds for. *)
Definition sf_nonneg (x : spec_float) : bool :=
  match x with
  | S754_zero _ => true
  | S754_infinity s | S754_finite s _ _ => negb s
  | S754_nan => false
  end.

(** ** Predicates of the statements *)

(** The gate's answer when the status query goes through: no row at all, or
    every row flagged. *)
Definition subscription_complete (d : database) (uid : Z) : Prop :=
  sponsors d = []
  ∨ ∀ sid, sid ∈ sponsors d →
           is_subscribed <$> user_sponsors d !! (uid, sid) = Some true.

(** The ledger's total for a user: the amounts of the user's transactions,
    added one by one in log order, starting from 0. *)
Definition ledger_sum (uid : Z) (log : list transaction) : float :=
  fold_left PrimFloat.add
    (tx_amount <$> filter (λ t, tx_user_id t = uid) log) 0%float.

(** Every stored balance is the user's ledger total, as the same double
    (which [==] of two numbers follows from). *)
Definition conserved (d : database) : Prop :=
  ∀ uid u, users d !! uid = Some u → balance u = ledger_sum uid (transactions d).

(** The operations of the engine, as the handlers that carry them out. *)
Inductive operation :=
  | Click (uid : Z) (tg_username : option string) (now : Z)
  | Withdraw (uid : Z) (amount_arg : option float) (now : Z)
  | Start (uid : Z) (tg_username : option string) (first_name : string)
          (start_arg : option Z) (now : Z).

Definition perform (rpc : database → Z → list Z) (op : operation) : M unit :=
  match op with
  | Click uid name now => handle_click uid name now ;; ret tt
  | Withdraw uid amount_arg now => handle_withdraw rpc uid amount_arg now ;; ret tt
  | Start uid name first start_arg now =>
      cmd_start uid name first start_arg now ;; ret tt
  end.

(** A [/start] is covered when the id has no ledger entry yet, as at a first
    registration. *)
Definition on_empty_ledger (op : operation) (d : database) : Prop :=
  match op with
  | Start uid _ _ _ _ => ∀ t, t ∈ transactions d → tx_user_id t ≠ uid
  | _ => True
  end.

(** One operation during which no error is logged, from store [d] to store
    [d']. *)
Definition quiet_step (rpc : database → Z → list Z) (d d' : database) : Prop :=
  ∃ op fs fs' n,
    perform rpc op (World d fs n) = (tt, World d' fs' n)
    ∧ on_empty_ledger op d.

(** ** Sample stores *)

Module Sample.
Definition alice : user := User 1 "alice" None 100 0%float None.
Definition bob : user := User 2 "bob" (Some 1) 200 0%float None.

(** Two users, [bob] referred by [alice]; no sponsors. *)
Definition two_users : database :=
  Database (<[1 := alice]> (<[2 := bob]> ∅)) [] ∅ [] [] 0.

(** [bob] after one click: a balance, a click time and a ledger entry. *)
Definition bob_clicked : user :=
  User 2 "bob" (Some 1) 200 0.2%float (Some 1700000000).

Definition after_click : database :=
  Database (<[1 := alice]> (<[2 := bob_clicked]> ∅)) [] ∅
    [Transaction 2 0.2%float "click" "Кликер" 1700000000] [] 0.

(** [two_users] after a click by [bob] at 1700000000 went through, with
    the commission for [alice]. *)
Definition commission_paid : database :=
  Database (<[1 := User 1 "alice" None 100 0.020000000000000004%float None]>
              (<[2 := bob_clicked]> ∅)) [] ∅
    [Transaction 2 0.2%float "click" "Кликер" 1700000000;
     Transaction 1 0.020000000000000004%float "referral_income"
       "10% от клика пользователя bob" 1700000000] [] 0.

(** One sponsor configured, nothing recorded for [bob]. *)
Definition one_sponsor : database :=
  Database (<[1 := alice]> (<[2 := bob]> ∅)) [10] ∅ [] [] 0.



(** A user with a balance of 30. *)
Definition dave : user := User 4 "dave" None 300 30%float None.

Definition funded : database :=
  Database (<[4 := dave]> ∅) [] ∅
    [Transaction 4 30%float "referral_income" "bonus" 300] [] 0.

(** Three active referrals for whoever asks. *)
Definition three_active (d : database) (uid : Z) : list Z := [11; 12; 13].
End Sample.

(** ** Predicates of the further statements *)

(** Two versions of a user's row with the same identity: id, name,
    referrer and creation time; and the later balance is a finite number
    when the earlier one was. *)
Definition same_identity (u u' : user) : Prop :=
  user_id u' = user_id u ∧ username u' = username u
  ∧ referrer_id u' = referrer_id u ∧ created_at u' = created_at u
  ∧ (PrimFloat.is_finite (balance u) = true
     → PrimFloat.is_finite (balance u') = true).

(** The users table keeps its ids, and every row its identity. *)
Definition users_kept (m m' : gmap Z user) : Prop :=
  ∀ k, match m !! k, m' !! k with
       | Some u, Some u' => same_identity u u'
       | None, None => True
       | _, _ => False
       end.

(** A store whose users table and ledger moved on: [m'] for the users,
    [new] appended to the transactions, everything else as in [d]. *)
Definition ledger_update (d : database) (m' : gmap Z user)
    (new : list transaction) : database :=
  Database m' (sponsors d) (user_sponsors d) (transactions d ++ new)
           (withdrawals d) (withdrawals_seq d).

(** A string without a blank. *)
Fixpoint spaceless (s : string) : bool :=
  match s with
  | EmptyString => true
  | String c r => negb (Ascii.eqb c Ascii.Space) && spaceless r
  end.

(** A request that can write, whatever fails during it: a click, a
    withdrawal request, a [/start], or the button of the sponsors
    message. *)
Definition any_step (rpc : database → Z → list Z) (d d' : database) : Prop :=
  (∃ op fs fs' n n', perform rpc op (World d fs n) = (tt, World d' fs' n'))
  ∨ (∃ uid bot_id now view fs fs' n n',
       handle_check_subscriptions uid bot_id now (World d fs n)
       = (view, World d' fs' n')).

(** What such requests leave of a store [d] in a later store [d']: the
    sponsor list, every user id, every recorded subscription, and the two
    logs as the beginnings of the later logs, which go on with entries of
    the three types and with pending requests. *)
Definition grown (d d' : database) : Prop :=
  sponsors d' = sponsors d
  ∧ (∀ k, is_Some (users d !! k) → is_Some (users d' !! k))
  ∧ (∀ k, is_subscribed <$> user_sponsors d !! k = Some true →
          is_subscribed <$> user_sponsors d' !! k = Some true)
  ∧ (∃ txs, transactions d' = transactions d ++ txs
            ∧ Forall (λ t, tx_type t ∈ ["click"; "referral_income"; "withdrawal"])
                     txs)
  ∧ (∃ wds, withdrawals d' = withdrawals d ++ wds
            ∧ Forall (λ r, wd_status r = "pending") wds).

(** Rows as [/start] makes them: filed under their own id, nobody their own
    referrer, the balance a finite number. *)
Definition sound_rows (m : gmap Z user) : Prop :=
  ∀ k u, m !! k = Some u →
         user_id u = k ∧ referrer_id u ≠ Some k
         ∧ PrimFloat.is_finite (balance u) = true.

(** A store with a sponsor nobody is recorded for, and the funded user of
    the samples. *)
Definition funded_unsubscribed : database :=
  Database (users Sample.funded) [10] ∅ [] [] 0.

(** A request made while the cooldown of a click of [uid] stamped [t1]
    runs, whatever fails during it: anybody's withdrawal request or press
    of the subscription button, a click or a [/start] of somebody else,
    or a click of the user made before the cooldown is over.  A [/start]
    of the user is not among them. *)
Definition meanwhile (rpc : database → Z → list Z) (uid t1 : Z)
    (d d' : database) : Prop :=
  (∃ op fs fs' n n',
     perform rpc op (World d fs n) = (tt, World d' fs' n')
     ∧ match op with
       | Click v _ t => v ≠ uid ∨ t - t1 < Config.CLICK_COOLDOWN
       | Withdraw _ _ _ => True
       | Start v _ _ _ _ => v ≠ uid
       end)
  ∨ (∃ v bot_id now view fs fs' n n',
       handle_check_subscriptions v bot_id now (World d fs n)
       = (view, World d' fs' n')).

(** ** What a store method can do to the world *)

Ltac run :=
  unfold update_balance, update_last_click, add_transaction, create_withdrawal,
    create_user, check_subscriptions, get_user_sponsors_status, get_sponsors,
    get_user, log_error, bind, ret, execute, read_store, write_store; cbn.

(** Case analysis on the world a method starts in: the schedule is empty,
    or its head lets the request through, or makes it raise. *)
Ltac by_schedule w :=
  destruct w as [?d [|[] ?fs] ?n]; run.

Lemma get_user_run (uid : Z) (w w' : world) (r : option user) :
  get_user uid w = (r, w') →
  store w' = store w ∧ (errors w ≤ errors w')%nat
  ∧ (∀ u, r = Some u → users (store w) !! uid = Some u)
  ∧ (errors w' = errors w → r = users (store w) !! uid).
Proof.
  by_schedule w; intros [= <- <-]; cbn; repeat split; (lia || done).
Qed.

Lemma check_subscriptions_run (uid : Z) (w w' : world) (b : bool) :
  check_subscriptions uid w = (b, w') →
  store w' = store w ∧ (errors w ≤ errors w')%nat.
Proof.
  by_schedule w; try destruct (rpc_get_user_sponsors_status _ _);
    intros [= <- <-]; cbn; split; (lia || done).
Qed.

(** A raising status query: no rows, and the gate answers [True]. *)
Lemma check_subscriptions_outage (uid : Z) (d : database) (fs : list bool) (n : nat) :
  check_subscriptions uid (World d (true :: fs) n) = (true, World d fs (S n)).
Proof. reflexivity. Qed.

Lemma update_balance_run (uid : Z) (amount : float) (w w' : world) (r : bool) :
  update_balance uid amount w = (r, w') →
  (errors w ≤ errors w')%nat
  ∧ (store w' = store w
     ∨ ∃ u, users (store w) !! uid = Some u
            ∧ json_number (balance u + amount)%float = true
            ∧ store w' = credited uid u amount (store w))
  ∧ (errors w' = errors w →
     ∀ u, users (store w) !! uid = Some u →
          json_number (balance u + amount)%float = true
          ∧ store w' = credited uid u amount (store w))
  ∧ (users (store w) !! uid = None → store w' = store w).
Proof.
  destruct w as [d fs n]. unfold update_balance, bind at 1.
  destruct (get_user uid _) as [o w1] eqn:Hget.
  apply get_user_run in Hget as (Hst & Hle & Hsome & Hquiet); cbn in *.
  destruct o as [u|].
  - specialize (Hsome u eq_refl).
    destruct w1 as [d1 fs1 n1]; cbn in *; subst d1.
    destruct fs1 as [|[] fs1]; run;
      try destruct (json_number (balance u + amount)) eqn:Hjson; cbn;
      intros [= <- <-]; cbn; (repeat split); try lia; eauto.
    all: try (right; exists u; done).
    all: intros; simplify_eq; try done; try lia.
  - intros [= <- <-]. repeat split; eauto;
      match goal with Hq : errors _ = _ |- _ => specialize (Hquiet Hq) end;
      congruence.
Qed.

Lemma update_last_click_run (uid : Z) (timestamp : Z) (w w' : world) (r : bool) :
  update_last_click uid timestamp w = (r, w') →
  (errors w ≤ errors w')%nat
  ∧ (store w' = store w ∨ store w' = clicked uid timestamp (store w))
  ∧ (errors w' = errors w → store w' = clicked uid timestamp (store w)).
Proof.
  by_schedule w; intros [= <- <-]; cbn; repeat split; eauto; lia.
Qed.

Lemma add_transaction_run (uid : Z) (amount : float) (type description : string)
    (now : Z) (w w' : world) (r : bool) :
  add_transaction uid amount type description now w = (r, w') →
  let t := Transaction uid amount type description now in
  (errors w ≤ errors w')%nat
  ∧ (store w' = store w ∨ store w' = logged t (store w))
  ∧ (errors w' = errors w → store w' = logged t (store w)).
Proof.
  by_schedule w; destruct (json_number amount); cbn;
    intros [= <- <-]; cbn; repeat split; eauto; lia.
Qed.

Lemma create_withdrawal_run (uid : Z) (amount : float) (now : Z)
    (w w' : world) (r : option withdrawal) :
  create_withdrawal uid amount now w = (r, w') →
  (errors w ≤ errors w')%nat
  ∧ match r with
    | None => store w' = store w
    | Some row =>
      row = Withdrawal (withdrawals_seq (store w) + 1) uid amount "pending" now
      ∧ json_number amount = true
      ∧ store w' = requested row (store w)
    end.
Proof.
  by_schedule w; destruct (json_number amount); cbn;
    intros [= <- <-]; cbn; repeat split; eauto; lia.
Qed.

Lemma get_user_referrals_run (rpc : database → Z → list Z) (uid : Z)
    (w w' : world) (r : Z * Z) :
  get_user_referrals rpc uid w = (r, w') →
  store w' = store w ∧ (errors w ≤ errors w')%nat
  ∧ (r.2 = 0 ∨ r.2 = Z.of_nat (length (rpc (store w) uid)))
  ∧ (errors w' = errors w → r.2 = Z.of_nat (length (rpc (store w) uid))).
Proof.
  unfold get_user_referrals.
  destruct w as [d [|[] [|[] fs]] n]; run; intros [= <- <-]; cbn;
    repeat split; eauto; lia.
Qed.



Lemma get_sponsors_run (w w' : world) (r : list Z) :
  get_sponsors w = (r, w') → store w' = store w ∧ (errors w ≤ errors w')%nat.
Proof. by_schedule w; intros [= <- <-]; cbn; split; (lia || done). Qed.

Lemma create_user_run (uid : Z) (name : option string) (referrer : option Z)
    (now : Z) (w w' : world) (r : bool) :
  create_user uid name referrer now w = (r, w') →
  let row :=
    User uid (str_or name ("user_" +:+ pretty uid)) referrer now 0%float None in
  (errors w ≤ errors w')%nat
  ∧ (errors w' = errors w → store w' = set_users (insert uid row) (store w)).
Proof. by_schedule w; intros [= <- <-]; cbn; split; (lia || done). Qed.

(** ** Doubles: a debit the balance covers *)

Lemma SFleb_zero (x : spec_float) : SFleb (S754_zero false) x = sf_nonneg x.
Proof. by destruct x as [| [] | | [] ? ?]. Qed.

Lemma shr_1_nonneg (mrs : shr_record) : 0 ≤ shr_m mrs → 0 ≤ shr_m (shr_1 mrs).
Proof. destruct mrs as [[|[p|p|]|p] r s]; cbn; lia. Qed.

Lemma iter_pos_nonneg (n : positive) (mrs : shr_record) :
  0 ≤ shr_m mrs → 0 ≤ shr_m (SpecFloat.iter_pos shr_1 n mrs).
Proof.
  revert mrs. induction n as [n IH | n IH |]; intros mrs Hm; cbn.
  - by apply IH, IH, shr_1_nonneg.
  - by apply IH, IH.
  - by apply shr_1_nonneg.
Qed.

Lemma shr_fexp_nonneg (m e : Z) (l : location) :
  0 ≤ m → 0 ≤ shr_m (shr_fexp prec emax m e l).1.
Proof.
  intros Hm. unfold shr_fexp, shr.
  assert (Hl : 0 ≤ shr_m (shr_record_of_loc m l)) by (by destruct l as [|[]]).
  destruct (_ - e); cbn [fst]; auto using iter_pos_nonneg.
Qed.

Lemma round_nearest_even_nonneg (m : Z) (l : location) :
  0 ≤ m → 0 ≤ round_nearest_even m l.
Proof. intros Hm. destruct l as [|[]]; cbn; try destruct (Z.even m); lia. Qed.

Lemma binary_round_aux_nonneg (m e : Z) (l : location) :
  0 ≤ m → sf_nonneg (binary_round_aux prec emax false m e l) = true.
Proof.
  intros Hm. unfold binary_round_aux.
  pose proof (shr_fexp_nonneg m e l Hm) as H1.
  destruct (shr_fexp prec emax m e l) as [mrs' e']. cbn [fst] in H1.
  pose proof (shr_fexp_nonneg _ e' loc_Exact
                (round_nearest_even_nonneg _ (loc_of_shr_record mrs') H1)) as H2.
  destruct (shr_fexp prec emax _ e' loc_Exact) as [mrs'' e'']. cbn [fst] in H2.
  destruct (shr_m mrs''); [done | by destruct (_ <=? _) | lia].
Qed.

Lemma binary_normalize_nonneg (m e : Z) :
  0 ≤ m → sf_nonneg (binary_normalize prec emax m e false) = true.
Proof.
  intros Hm. destruct m as [|p|p]; [done | | lia].
  cbn [binary_normalize]. unfold binary_round.
  destruct (shl_align _ _ _) as [mz ez]. by apply binary_round_aux_nonneg.
Qed.

Lemma digits2_pos_bounds (m : positive) :
  2 ^ (Z.pos (digits2_pos m) - 1) ≤ Z.pos m < 2 ^ Z.pos (digits2_pos m).
Proof.
  induction m as [m IH | m IH |]; cbn [digits2_pos].
  - rewrite Pos2Z.inj_succ, Z.pow_succ_r by lia.
    replace (Z.succ (Z.pos (digits2_pos m)) - 1) with (Z.succ (Z.pos (digits2_pos m) - 1)) by lia.
    rewrite Z.pow_succ_r by lia. lia.
  - rewrite Pos2Z.inj_succ, Z.pow_succ_r by lia.
    replace (Z.succ (Z.pos (digits2_pos m)) - 1) with (Z.succ (Z.pos (digits2_pos m) - 1)) by lia.
    rewrite Z.pow_succ_r by lia. lia.
  - cbn. lia.
Qed.

Lemma shl_align_value (mx : positive) (ex ez : Z) :
  ez ≤ ex → Z.pos (shl_align mx ex ez).1 = Z.pos mx * 2 ^ (ex - ez).
Proof.
  intros Hle. unfold shl_align. destruct (ez - ex) as [|d|d] eqn:Hd; cbn [fst].
  - replace (ex - ez) with 0 by lia. lia.
  - lia.
  - replace (ex - ez) with (Z.pos d) by lia.
    change (Pos.iter xO mx d) with (shift_pos d mx).
    rewrite shift_pos_correct. change (Z.pow_pos 2 d) with (2 ^ Z.pos d). lia.
Qed.

Lemma canonical_exponent (s : bool) (m : positive) (e : Z) :
  valid_binary (S754_finite s m e) = true →
  e = Z.max (Z.pos (digits2_pos m) + e - 53) (-1074).
Proof.
  cbn [SpecFloat.valid_binary]. unfold bounded, canonical_mantissa, fexp.
  intros [Hc _]%andb_true_iff. apply Z.eqb_eq in Hc.
  change (SpecFloat.emin prec emax) with (-1074) in Hc. change prec with 53 in Hc.
  lia.
Qed.

(** Two positive doubles with [x >= y]: the aligned mantissas compare the
    same way. *)
Lemma aligned_mantissas (mb ma : positive) (eb ea : Z) :
  valid_binary (S754_finite false mb eb) = true →
  valid_binary (S754_finite false ma ea) = true →
  SFltb (S754_finite false mb eb) (S754_finite false ma ea) = false →
  Z.pos (shl_align ma ea (Z.min eb ea)).1 ≤ Z.pos (shl_align mb eb (Z.min eb ea)).1.
Proof.
  intros Hb%canonical_exponent Ha%canonical_exponent Hlt.
  rewrite !shl_align_value by lia.
  unfold SFltb in Hlt. cbn [SFcompare] in Hlt.
  destruct (Z.compare_spec eb ea) as [-> | Hlt' | Hgt]; [| done |].
  - rewrite Z.min_id, Z.sub_diag. cbn [Z.pow].
    change (Pos.compare_cont Eq mb ma) with (Pos.compare mb ma) in Hlt.
    destruct (Pos.compare_spec mb ma); [lia | done | lia].
  - rewrite Z.min_r by lia. rewrite Z.sub_diag. cbn [Z.pow].
    pose proof (digits2_pos_bounds mb) as [Hb1 _].
    pose proof (digits2_pos_bounds ma) as [_ Ha2].
    assert (Hdb : Z.pos (digits2_pos mb) = 53) by lia.
    assert (Hda : Z.pos (digits2_pos ma) ≤ 53) by lia.
    rewrite Hdb in Hb1. change (2 ^ (53 - 1)) with 4503599627370496 in Hb1.
    assert (Z.pos ma < 2 ^ 53).
    { eapply Z.lt_le_trans; [exact Ha2|]. apply Z.pow_le_mono_r; lia. }
    change (2 ^ 53) with 9007199254740992 in *.
    assert (2 ^ 1 ≤ 2 ^ (eb - ea)) by (apply Z.pow_le_mono_r; lia).
    change (2 ^ 1) with 2 in *. nia.
Qed.

Lemma is_finite_spec (a : float) :
  is_finite a = true →
  match Prim2SF a with
  | S754_zero _ | S754_finite _ _ _ => True
  | _ => False
  end.
Proof.
  unfold is_finite, is_nan, is_infinity.
  rewrite !FloatAxioms.eqb_spec, FloatAxioms.abs_spec. change (Prim2SF infinity) with (S754_infinity false).
  by destruct (Prim2SF a) as [| [] | |].
Qed.

(** A debit the balance covers leaves a balance that is not negative:
    [0 <= b], not [b < a] and a finite [a] give [0 <= b + (-a)]. *)
Lemma covered_debit_nonneg (b a : float) :
  (0 <=? b)%float = true → (b <? a)%float = false → is_finite a = true →
  (0 <=? b + - a)%float = true.
Proof.
  intros Hb Hcover Hfin%is_finite_spec. revert Hb Hcover.
  rewrite !FloatAxioms.leb_spec, FloatAxioms.ltb_spec, FloatAxioms.add_spec,
    FloatAxioms.opp_spec.
  change (Prim2SF 0) with (S754_zero false). rewrite !SFleb_zero.
  pose proof (Prim2SF_valid b) as Hvb. pose proof (Prim2SF_valid a) as Hva.
  destruct (Prim2SF b) as [sb | [] | | [] mb eb]; try done;
    destruct (Prim2SF a) as [sa | sa | | sa ma ea]; try done; intros _.
  - by destruct sb, sa.
  - by destruct sa.
  - intros Hcover. unfold SF64add. cbn [SFadd SFopp].
    apply binary_normalize_nonneg. destruct sa; cbn [negb cond_Zopp]; [lia|].
    pose proof (aligned_mantissas mb ma eb ea Hvb Hva Hcover). lia.
Qed.

(** ** The subscription gate *)

Ltac split_runs :=
  repeat match goal with
  | |- context [let (_, _) := ?m in _] => destruct m
  | |- context [match ?x with _ => _ end] => destruct x
  end.

Lemma credit_click_reply (uid : Z) (name : option string) (u : user) (now : Z)
    (w : world) :
  (credit_click uid name u now w).1 ≠ ClickNotSubscribed.
Proof. unfold credit_click, bind, ret. split_runs; cbn; discriminate. Qed.

Lemma all_subscribed_rows (d : database) (uid : Z) (l : list Z) :
  all_subscribed
    (map (λ sid, StatusRow sid (is_subscribed <$> user_sponsors d !! (uid, sid))) l)
  = true
  ↔ ∀ sid, sid ∈ l → is_subscribed <$> user_sponsors d !! (uid, sid) = Some true.
Proof.
  induction l as [|sid l IH]; cbn.
  - split; [intros _ sid Hin; inversion Hin | done].
  - destruct (is_subscribed <$> user_sponsors d !! (uid, sid)) as [[]|] eqn:Hrow; cbn.
    + rewrite IH. split.
      * intros Hall sid' [->|Hin]%elem_of_cons; auto.
      * intros Hall sid' Hin. apply Hall. by right.
    + split; [done|]. intros Hall. specialize (Hall sid (list_elem_of_here _ _)).
      congruence.
    + split; [done|]. intros Hall. specialize (Hall sid (list_elem_of_here _ _)).
      congruence.
Qed.

(** With the status query answered, [check_subscriptions] is the completeness
    of the user's subscriptions. *)
Lemma check_subscriptions_answered (uid : Z) (w w' : world) (b : bool) :
  check_subscriptions uid w = (b, w') →
  errors w' = errors w →
  b = true ↔ subscription_complete (store w) uid.
Proof.
  unfold subscription_complete. by_schedule w.
  2: { intros [= <- <-]; cbn. lia. }
  all: unfold rpc_get_user_sponsors_status;
    destruct (sponsors d) as [|sid l] eqn:Hsp; cbn [map];
    [ intros [= <- <-] _; split; auto
    | intros [= <- <-] _;
      rewrite <- (all_subscribed_rows d uid (sid :: l)); cbn [map];
      split; [auto | intros [|]; done] ].
Qed.

(** C10: when the status query raises, [get_user_sponsors_status] answers
    with no rows, [check_subscriptions] maps that to [True], and every gated
    handler (click, withdrawal menu, profile, earn, referral) runs on as
    after a passed gate: it is the part of the handler behind the gate, run
    on the world the failed query left, and so never gives the
    not-subscribed reply. *)
Theorem status_outage_opens_the_gate (rpc : database → Z → list Z)
    (uid bot_id : Z) (name : option string) (now : Z)
    (d : database) (fs : list bool) (n : nat) :
  get_user_sponsors_status uid (World d (true :: fs) n) = ([], World d fs (S n))
  ∧ check_subscriptions uid (World d (true :: fs) n) = (true, World d fs (S n))
  ∧ handle_click uid name now (World d (true :: fs) n)
    = (let* user := get_user uid in
       match user with
       | None => ret ClickNoUser
       | Some u =>
         if truthy_int (last_click u)
            && (now - default 0 (last_click u) <? Config.CLICK_COOLDOWN)
         then ret (ClickCooldown
                     (Config.CLICK_COOLDOWN - (now - default 0 (last_click u))))
         else credit_click uid name u now
       end) (World d fs (S n))
  ∧ (handle_click uid name now (World d (true :: fs) n)).1 ≠ ClickNotSubscribed
  ∧ handle_withdraw_menu uid (World d (true :: fs) n)
    = (WithdrawMenu Config.WITHDRAWAL_AMOUNTS, World d fs (S n))
  ∧ handle_profile rpc uid now (World d (true :: fs) n)
    = (let* user := get_user uid in
       match user with
       | None => ret ProfileNoUser
       | Some u =>
         let* refs := get_user_referrals rpc uid in
         ret (Profile (balance u) refs.1 refs.2
                (if truthy_int (last_click u) then
                   if now - default 0 (last_click u) <? Config.CLICK_COOLDOWN
                   then Some (Config.CLICK_COOLDOWN
                              - (now - default 0 (last_click u)))
                   else None
                 else None))
       end) (World d fs (S n))
  ∧ (handle_profile rpc uid now (World d (true :: fs) n)).1 ≠ ProfileNotSubscribed
  ∧ handle_earn uid bot_id (World d (true :: fs) n) = (EarnMenu, World d fs (S n))
  ∧ handle_referral rpc uid (World d (true :: fs) n)
    = (let* refs := get_user_referrals rpc uid in
       ret (Referral refs.1 refs.2)) (World d fs (S n))
  ∧ (handle_referral rpc uid (World d (true :: fs) n)).1 ≠ ReferralNotSubscribed.
Proof.
  split_and!; try reflexivity.
  - unfold handle_click, bind at 1. rewrite check_subscriptions_outage. cbn [negb].
    unfold bind, ret. split_runs; cbn; try discriminate. apply credit_click_reply.
  - unfold handle_profile, bind at 1. rewrite check_subscriptions_outage. cbn [negb].
    unfold bind, ret. split_runs; cbn; discriminate.
  - unfold handle_referral, bind at 1. rewrite check_subscriptions_outage. cbn [negb].
    unfold bind, ret. split_runs; cbn; discriminate.
Qed.

(** C5: with one sponsor configured and nothing recorded for the user, a
    status query that raises makes [check_subscriptions] answer [True],
    where the subscriptions are not complete; the same store answers
    [False] when the query goes through. *)
Theorem outage_reads_as_subscribed :
  sponsors Sample.one_sponsor = [10]
  ∧ user_sponsors Sample.one_sponsor !! (2, 10) = None
  ∧ ¬ subscription_complete Sample.one_sponsor 2
  ∧ check_subscriptions 2 (World Sample.one_sponsor [true] 0)
    = (true, World Sample.one_sponsor [] 1)
  ∧ check_subscriptions 2 (World Sample.one_sponsor [] 0)
    = (false, World Sample.one_sponsor [] 0).
Proof.
  repeat split.
  intros [Hnone | Hall]; [discriminate|].
  specialize (Hall 10 (list_elem_of_here _ _)). discriminate.
Qed.

(** ** The click cooldown *)

(** [handle_click] behind the subscription gate and the read of the row. *)
Lemma handle_click_past_gate (uid : Z) (name : option string) (now : Z)
    (w w1 w2 : world) (u : user) :
  check_subscriptions uid w = (true, w1) →
  get_user uid w1 = (Some u, w2) →
  handle_click uid name now w
  = (if truthy_int (last_click u)
        && (now - default 0 (last_click u) <? Config.CLICK_COOLDOWN)
     then ret (ClickCooldown
                 (Config.CLICK_COOLDOWN - (now - default 0 (last_click u))))
     else credit_click uid name u now) w2.
Proof.
  intros Hgate Hload. unfold handle_click, bind.
  rewrite Hgate. cbn [negb]. by rewrite Hload.
Qed.

Lemma handle_click_cooldown (uid : Z) (name : option string) (now t : Z)
    (w w1 w2 : world) (u : user) :
  check_subscriptions uid w = (true, w1) →
  get_user uid w1 = (Some u, w2) →
  last_click u = Some t → t ≠ 0 → now - t < Config.CLICK_COOLDOWN →
  handle_click uid name now w
  = (ClickCooldown (Config.CLICK_COOLDOWN - (now - t)), w2).
Proof.
  intros Hgate Hload Hl Hnz Hyoung.
  rewrite (handle_click_past_gate uid name now w w1 w2 u Hgate Hload), Hl. cbn.
  destruct (Z.eqb_spec t 0); [done|]. cbn.
  destruct (Z.ltb_spec (now - t) Config.CLICK_COOLDOWN); [done | lia].
Qed.




(** ** Registration *)

(** [create_user] on a request that goes through leaves the payload as the
    user's row, whatever the row was before. *)
Lemma create_user_replaces (uid : Z) (name : option string) (referrer : option Z)
    (now : Z) (d : database) (fs : list bool) (n : nat) :
  users (store (create_user uid name referrer now (World d (false :: fs) n)).2) !! uid
  = Some (User uid (str_or name ("user_" +:+ pretty uid)) referrer now 0%float None).
Proof. run. apply lookup_insert_eq. Qed.

(** C3: [bob] holds 0.2 STAR, clicked at 1700000000 and was referred by
    user 1.  A second [/start] leaves his row with balance 0, no last click
    and no referrer. *)
Theorem repeated_start_resets_the_user :
  users Sample.after_click !! 2
  = Some (User 2 "bob" (Some 1) 200 0.2%float (Some 1700000000))
  ∧ users (store (cmd_start 2 (Some "bob") "Bob" None 1700000100
                    (World Sample.after_click [] 0)).2) !! 2
    = Some (User 2 "bob" None 1700000100 0%float None).
Proof. split; vm_compute; reflexivity. Qed.

(** ** Withdrawals *)

(** C9: the payload [withdraw_-5], whose amount is [float("-5")], from a
    user with balance 0 and three active referrals: a withdrawal row of
    amount -5 is created and the balance rises to 5. *)
Theorem negative_amount_is_accepted :
  handle_withdraw Sample.three_active 2 (Some (-5)%float) 1700000000
    (World Sample.two_users [] 0)
  = (WithdrawCreated 1 (-5)%float,
     World (Database (<[1 := Sample.alice]>
                        (<[2 := set_balance 5%float Sample.bob]> ∅)) [] ∅
              [Transaction 2 5%float "withdrawal" "Вывод #1" 1700000000]
              [Withdrawal 1 2 (-5)%float "pending" 1700000000] 1) [] 0)
  ∧ (-5 <? 0)%float = true
  ∧ (balance Sample.bob <? 5)%float = true.
Proof. repeat split; vm_compute; reflexivity. Qed.

(** One more step of a handler's run: name the outcome of the next call. *)
Ltac step H r w :=
  match goal with
  | |- context [let (_, _) := ?m in _] =>
      destruct m as [r w] eqn:H; cbv beta iota
  end.

(** The replies of [handle_withdraw] and what each says about the store. *)
Lemma handle_withdraw_run (rpc : database → Z → list Z) (uid : Z)
    (amount_arg : option float) (now : Z) (w w' : world) (reply : withdraw_reply) :
  handle_withdraw rpc uid amount_arg now w = (reply, w') →
  match reply with
  | WithdrawCreated id amount =>
    ∃ u, users (store w) !! uid = Some u
      ∧ amount_arg = Some amount
      ∧ (balance u <? amount)%float = false
      ∧ 3 ≤ Z.of_nat (length (rpc (store w) uid))
      ∧ id = withdrawals_seq (store w) + 1
      ∧ Withdrawal id uid amount "pending" now ∈ withdrawals (store w')
      ∧ (errors w' = errors w →
         store w'
         = logged (Transaction uid (- amount) "withdrawal"
                     ("Вывод #" +:+ pretty id) now)
             (credited uid u (- amount)
                (requested (Withdrawal id uid amount "pending" now) (store w))))
  | _ => store w' = store w
  end.
Proof.
  unfold handle_withdraw. destruct amount_arg as [amount|]; [|by intros [= <- <-]].
  unfold bind. step Hload o w1.
  apply get_user_run in Hload as (Hs1 & He1 & Hu & _).
  destruct o as [u|]; [|by intros [= <- <-]]. specialize (Hu u eq_refl).
  destruct (balance u <? amount)%float eqn:Hbal; [by intros [= <- <-]|].
  step Hrefs refs w2.
  apply get_user_referrals_run in Hrefs as (Hs2 & He2 & Hact & _).
  destruct (Z.ltb_spec refs.2 3) as [|Hthree];
    [intros [= <- <-]; cbn; congruence|].
  step Hrow o w3. apply create_withdrawal_run in Hrow as (He3 & Hrow).
  destruct o as [row|]; [|intros [= <- <-]; cbn; congruence].
  destruct Hrow as (-> & Hjson & Hs3).
  step Hupd r4 w4. step Hlog r5 w5. intros [= <- <-]. cbn [wd_id].
  apply update_balance_run in Hupd as (He4 & Hupd & Hupdq & _).
  apply add_transaction_run in Hlog as (He5 & Hlog & Hlogq). cbn zeta in *.
  rewrite Hs2 in *. rewrite Hs1 in *.
  exists u. split; [done|]. split; [done|]. split; [done|].
  split; [destruct Hact as [H0 | <-]; [lia | done]|]. split; [done|]. split.
  - assert (Hin : Withdrawal (withdrawals_seq (store w) + 1) uid amount "pending" now
                  ∈ withdrawals (store w3)).
    { rewrite Hs3. cbn. apply elem_of_app. right. apply list_elem_of_here. }
    assert (Hw4 : withdrawals (store w4) = withdrawals (store w3)).
    { destruct Hupd as [-> | (? & _ & _ & ->)]; done. }
    destruct Hlog as [-> | ->]; cbn; by rewrite Hw4.
  - intros Hquiet.
    assert (Hu3 : users (store w3) !! uid = Some u) by (by rewrite Hs3).
    rewrite Hlogq by lia.
    destruct (Hupdq ltac:(lia) u Hu3) as [_ ->]. by rewrite Hs3.
Qed.

(** C1, as the code has it: a call that is not answered with a created
    withdrawal leaves the store as it was.  A call answered with a created
    withdrawal passed both gates and has inserted the pending row; when no
    request of the call fails, the store is the old one with the row
    inserted, the balance debited and the transaction appended. *)
Theorem withdrawal_effects (rpc : database → Z → list Z) (uid : Z)
    (amount_arg : option float) (now : Z) (w w' : world) (reply : withdraw_reply) :
  handle_withdraw rpc uid amount_arg now w = (reply, w') →
  match reply with
  | WithdrawCreated id amount =>
    ∃ u, users (store w) !! uid = Some u
      ∧ amount_arg = Some amount
      ∧ (balance u <? amount)%float = false
      ∧ 3 ≤ Z.of_nat (length (rpc (store w) uid))
      ∧ id = withdrawals_seq (store w) + 1
      ∧ Withdrawal id uid amount "pending" now ∈ withdrawals (store w')
      ∧ (errors w' = errors w →
         store w'
         = logged (Transaction uid (- amount) "withdrawal"
                     ("Вывод #" +:+ pretty id) now)
             (credited uid u (- amount)
                (requested (Withdrawal id uid amount "pending" now) (store w))))
  | _ => store w' = store w
  end.
Proof. apply handle_withdraw_run. Qed.

Lemma withdrawal_effects_witness :
  store (handle_withdraw Sample.three_active 4 (Some 25%float) 1700000000
           (World Sample.funded [] 0)).2
  = logged (Transaction 4 (-25)%float "withdrawal" "Вывод #1" 1700000000)
      (credited 4 Sample.dave (-25)%float
         (requested (Withdrawal 1 4 25%float "pending" 1700000000) Sample.funded)).
Proof.
  pose proof (withdrawal_effects Sample.three_active 4 (Some 25%float) 1700000000
                (World Sample.funded [] 0)
                (handle_withdraw Sample.three_active 4 (Some 25%float) 1700000000
                   (World Sample.funded [] 0)).2
                (WithdrawCreated 1 25%float) eq_refl)
    as (u & Hu & _ & _ & _ & _ & _ & Hquiet).
  injection Hu as <-. exact (Hquiet eq_refl).
Defined.

(** C1 as stated fails when the balance update raises after the row was
    inserted: the pending row and the transaction are in the store, and the
    balance is still 30. *)
Lemma withdrawal_row_without_debit :
  handle_withdraw Sample.three_active 4 (Some 25%float) 1700000000
    (World Sample.funded [false; false; false; false; false; true] 0)
  = (WithdrawCreated 1 25%float,
     World (Database (<[4 := Sample.dave]> ∅) [] ∅
              [Transaction 4 30%float "referral_income" "bonus" 300;
               Transaction 4 (-25)%float "withdrawal" "Вывод #1" 1700000000]
              [Withdrawal 1 4 25%float "pending" 1700000000] 1) [] 1)
  ∧ balance Sample.dave = 30%float.
Proof. split; vm_compute; reflexivity. Qed.

(** What a withdrawal request can do to the users table: nothing, or the
    debit of a covered, finite amount from the caller's row. *)
Lemma handle_withdraw_users (rpc : database → Z → list Z) (uid : Z)
    (amount_arg : option float) (now : Z) (w w' : world) (reply : withdraw_reply) :
  handle_withdraw rpc uid amount_arg now w = (reply, w') →
  users (store w') = users (store w)
  ∨ ∃ u amount,
      amount_arg = Some amount
      ∧ users (store w) !! uid = Some u
      ∧ (balance u <? amount)%float = false
      ∧ json_number amount = true
      ∧ users (store w')
        = alter (set_balance (balance u + - amount)%float) uid (users (store w)).
Proof.
  unfold handle_withdraw. destruct amount_arg as [amount|]; [|intros [= _ <-]; by left].
  unfold bind. step Hload o w1.
  apply get_user_run in Hload as (Hs1 & _ & Hu & _).
  destruct o as [u|]; [|intros [= _ <-]; left; congruence].
  specialize (Hu u eq_refl).
  destruct (balance u <? amount)%float eqn:Hbal; [intros [= _ <-]; left; congruence|].
  step Hrefs refs w2. apply get_user_referrals_run in Hrefs as (Hs2 & _).
  destruct (refs.2 <? 3); [intros [= _ <-]; left; congruence|].
  step Hrow o w3. apply create_withdrawal_run in Hrow as (_ & Hrow).
  destruct o as [row|]; [|intros [= _ <-]; left; congruence].
  destruct Hrow as (_ & Hjson & Hs3).
  step Hupd r4 w4. step Hlog r5 w5. intros [= _ <-].
  apply update_balance_run in Hupd as (_ & Hupd & _).
  apply add_transaction_run in Hlog as (_ & Hlog & _). cbn zeta in Hlog.
  assert (Hu3 : users (store w3) = users (store w)) by (rewrite Hs3; cbn; congruence).
  assert (Hu5 : users (store w5) = users (store w4)) by (by destruct Hlog as [-> | ->]).
  rewrite Hu5. destruct Hupd as [-> | (u' & Hu' & _ & ->)]; [by left|].
  right. exists u, amount. rewrite Hu3 in Hu'. assert (u' = u) as -> by congruence.
  repeat split; try done. cbn. by rewrite Hu3.
Qed.

(** C6, as the code has it: a withdrawal request, whatever its payload and
    whichever of its requests fail, leaves every balance that was at least
    0 at least 0.  A request for more than the caller's balance writes
    nothing; it is answered with the insufficient-balance reply carrying
    the balance when the read of the caller's row goes through, and with
    the no-user reply when that read raises. *)
Theorem withdrawal_keeps_balances_nonnegative (rpc : database → Z → list Z)
    (uid who : Z) (amount_arg : option float) (now : Z) (w w' : world)
    (reply : withdraw_reply) (v : user) :
  handle_withdraw rpc uid amount_arg now w = (reply, w') →
  users (store w) !! who = Some v →
  (0 <=? balance v)%float = true →
  (∃ v', users (store w') !! who = Some v' ∧ (0 <=? balance v')%float = true)
  ∧ (∀ amount,
       amount_arg = Some amount → who = uid →
       (balance v <? amount)%float = true →
       store w' = store w
       ∧ (reply = WithdrawInsufficientBalance (balance v)
          ∨ reply = WithdrawNoUser ∧ (errors w < errors w')%nat)
       ∧ (errors w' = errors w → reply = WithdrawInsufficientBalance (balance v))
       ∧ (∀ w1, get_user uid w = (Some v, w1) →
                reply = WithdrawInsufficientBalance (balance v))).
Proof.
  intros Hrun Hv Hpos. split.
  - apply handle_withdraw_users in Hrun
      as [-> | (u & amount & _ & Hu & Hcover & Hjson & ->)]; [eauto|].
    destruct (decide (who = uid)) as [->|Hne].
    + rewrite lookup_alter_eq, Hu. rewrite Hu in Hv. injection Hv as ->.
      eexists. split; [done|]. cbn [balance set_balance].
      by apply covered_debit_nonneg.
    + rewrite lookup_alter_ne by done. eauto.
  - intros amount -> -> Hshort. revert Hrun.
    unfold handle_withdraw, bind. step Hload o w1.
    pose proof (get_user_run _ _ _ _ Hload) as (Hs1 & He1 & Hsome & Hq).
    destruct o as [u|].
    + specialize (Hsome u eq_refl). assert (u = v) as -> by congruence.
      rewrite Hshort. intros [= <- <-]. split_and!; auto.
    + intros [= <- <-].
      assert (Hraised : (errors w < errors w1)%nat).
      { destruct (decide (errors w1 = errors w)) as [Heq|Hne]; [|lia].
        specialize (Hq Heq). congruence. }
      split_and!; [done | by right | lia | intros w2; congruence].
Qed.

Lemma withdrawal_keeps_balances_nonnegative_witness :
  ∃ v', users (store (handle_withdraw Sample.three_active 4 (Some 25%float)
                        1700000000 (World Sample.funded [] 0)).2) !! 4 = Some v'
        ∧ (0 <=? balance v')%float = true.
Proof.
  exact (proj1 (withdrawal_keeps_balances_nonnegative Sample.three_active 4 4
                  (Some 25%float) 1700000000 (World Sample.funded [] 0)
                  (handle_withdraw Sample.three_active 4 (Some 25%float)
                     1700000000 (World Sample.funded [] 0)).2
                  (WithdrawCreated 1 25%float) Sample.dave
                  eq_refl eq_refl eq_refl)).
Defined.

(** C6 as stated fails when the store is down: an amount above the balance
    is then not answered with the insufficient-balance reply.  The read of
    the row raises, [get_user] answers [None], and the request for 50 of a
    user holding 30 is told to try [/start]; nothing is written. *)
Lemma overdraft_during_outage_reads_as_no_user :
  users Sample.funded !! 4 = Some Sample.dave
  ∧ (balance Sample.dave <? 50)%float = true
  ∧ handle_withdraw Sample.three_active 4 (Some 50%float) 1700000000
      (World Sample.funded [true] 0)
    = (WithdrawNoUser, World Sample.funded [] 1)
  ∧ handle_withdraw Sample.three_active 4 (Some 50%float) 1700000000
      (World Sample.funded [] 0)
    = (WithdrawInsufficientBalance 30%float, World Sample.funded [] 0).
Proof. repeat split. Qed.

(** ** Conservation *)

Lemma ledger_sum_own (uid : Z) (log : list transaction) (t : transaction) :
  tx_user_id t = uid →
  ledger_sum uid (log ++ [t]) = (ledger_sum uid log + tx_amount t)%float.
Proof.
  intros Hown. unfold ledger_sum.
  rewrite filter_app, fmap_app, fold_left_app.
  rewrite filter_cons_True by done. reflexivity.
Qed.

Lemma ledger_sum_other (uid : Z) (log : list transaction) (t : transaction) :
  tx_user_id t ≠ uid → ledger_sum uid (log ++ [t]) = ledger_sum uid log.
Proof.
  intros Hother. unfold ledger_sum.
  rewrite filter_app, filter_cons_False by done. by rewrite app_nil_r.
Qed.

Lemma ledger_sum_no_entry (uid : Z) (log : list transaction) :
  (∀ t, t ∈ log → tx_user_id t ≠ uid) → ledger_sum uid log = 0%float.
Proof.
  unfold ledger_sum. induction log as [|t log IH]; intros Hno; [done|].
  rewrite filter_cons_False by (apply Hno, list_elem_of_here).
  apply IH. intros t' Hin. apply Hno. by right.
Qed.

(** A balance update followed by the matching ledger entry. *)
Lemma conserved_entry (d : database) (uid : Z) (u : user) (amount : float)
    (type description : string) (now : Z) :
  conserved d → users d !! uid = Some u →
  conserved (logged (Transaction uid amount type description now)
               (credited uid u amount d)).
Proof.
  intros Hd Hu id v. cbn [users transactions logged credited set_users].
  destruct (decide (id = uid)) as [->|Hne].
  - rewrite lookup_alter_eq, Hu. intros [= <-].
    rewrite ledger_sum_own by done. cbn. by rewrite (Hd uid u Hu).
  - rewrite lookup_alter_ne by done. intros Hv.
    rewrite ledger_sum_other by (cbn; congruence). by apply Hd.
Qed.

(** A ledger entry for an id that has no row. *)
Lemma conserved_stray_entry (d : database) (t : transaction) :
  conserved d → users d !! tx_user_id t = None → conserved (logged t d).
Proof.
  intros Hd Hnone id v Hv. cbn [users transactions logged] in *.
  rewrite ledger_sum_other by congruence. by apply Hd.
Qed.

Lemma conserved_clicked (d : database) (uid timestamp : Z) :
  conserved d → conserved (clicked uid timestamp d).
Proof.
  intros Hd id v. cbn [users transactions clicked set_users].
  destruct (decide (id = uid)) as [->|Hne].
  - rewrite lookup_alter_eq. destruct (users d !! uid) as [u|] eqn:Hu; [|done].
    intros [= <-]. cbn [balance set_last_click]. by apply Hd.
  - rewrite lookup_alter_ne by done. apply Hd.
Qed.

Lemma conserved_requested (d : database) (row : withdrawal) :
  conserved d → conserved (requested row d).
Proof. intros Hd id v Hv. by apply Hd. Qed.

(** A click's reward and bonus when none of their requests fails. *)
Lemma credit_click_quiet (uid : Z) (name : option string) (u u0 : user) (now : Z)
    (w w' : world) (reply : click_reply) :
  credit_click uid name u now w = (reply, w') →
  errors w' = errors w →
  users (store w) !! uid = Some u0 →
  store w' = commissioned uid name (referrer_id u) now (rewarded uid u0 now (store w)).
Proof.
  intros Hrun Hquiet Hu0. revert Hrun. unfold credit_click, bind.
  step Hpay r1 w1. step Hstamp r2 w2. step Hlog r3 w3.
  apply update_balance_run in Hpay as (He1 & _ & Hpay & _).
  apply update_last_click_run in Hstamp as (He2 & _ & Hstamp).
  apply add_transaction_run in Hlog as (He3 & _ & Hlog). cbn zeta in Hlog.
  assert (Hlast : ∀ w4 w5 o,
            (errors w3 ≤ errors w4)%nat →
            get_user uid w4 = (o, w5) →
            match o with
            | Some u1 => ret (ClickRewarded Config.CLICK_REWARD (balance u1))
            | None => ret ClickRaised
            end w5 = (reply, w') →
            store w' = store w4 ∧ errors w4 = errors w).
  { intros w4 w5 o He4 Hget Hend.
    apply get_user_run in Hget as (Hs5 & He5 & _).
    assert (w' = w5) as -> by (destruct o; by injection Hend).
    split; [done | lia]. }
  assert (Hd3 : errors w3 = errors w → store w3 = rewarded uid u0 now (store w)).
  { intros He. rewrite Hlog, Hstamp by lia.
    by destruct (Hpay ltac:(lia) u0 Hu0) as [_ ->]. }
  unfold commissioned. destruct (truthy_int (referrer_id u)).
  - step Hblock rb wb. step Hget o w6. intros Hend.
    revert Hblock. step Hpay2 r4 w4. step Hlog2 r5 w5. unfold ret.
    intros Hblock. assert (wb = w5) as -> by congruence. clear Hblock.
    apply update_balance_run in Hpay2 as (He4 & _ & Hpay2 & Hnone).
    apply add_transaction_run in Hlog2 as (He5 & _ & Hlog2). cbn zeta in Hlog2.
    destruct (Hlast w5 w6 o) as [-> He]; [lia | done | done |].
    rewrite Hlog2 by lia. rewrite <- Hd3 by lia.
    destruct (users (store w3) !! default 0 (referrer_id u)) as [ru|] eqn:Hru.
    + by destruct (Hpay2 ltac:(lia) ru eq_refl) as [_ ->].
    + by rewrite (Hnone eq_refl).
  - step Hblock rb wb. injection Hblock as _ <-. step Hget o w6. intros Hend.
    destruct (Hlast w3 w6 o) as [-> He]; [lia | done | done |]. by apply Hd3.
Qed.

Lemma conserved_rewarded (d : database) (uid : Z) (u : user) (now : Z) :
  conserved d → users d !! uid = Some u → conserved (rewarded uid u now d).
Proof.
  intros Hd Hu.
  apply (conserved_clicked
           (logged (click_entry uid now) (credited uid u Config.CLICK_REWARD d))).
  by apply conserved_entry.
Qed.

Lemma conserved_commissioned (d : database) (uid : Z) (name : option string)
    (referrer : option Z) (now : Z) :
  conserved d → conserved (commissioned uid name referrer now d).
Proof.
  intros Hd. unfold commissioned. destruct (truthy_int referrer); [|done].
  cbv zeta. destruct (users d !! default 0 referrer) as [ru|] eqn:Hru.
  - by apply conserved_entry.
  - by apply conserved_stray_entry.
Qed.

Lemma credit_click_conserves (uid : Z) (name : option string) (u : user) (now : Z)
    (w w' : world) (reply : click_reply) :
  credit_click uid name u now w = (reply, w') →
  errors w' = errors w →
  is_Some (users (store w) !! uid) →
  conserved (store w) → conserved (store w').
Proof.
  intros Hrun Hquiet [u0 Hu0] Hd.
  rewrite (credit_click_quiet uid name u u0 now w w' reply Hrun Hquiet Hu0).
  by apply conserved_commissioned, conserved_rewarded.
Qed.

(** Errors are only ever added to the log. *)
Ltac mono_step :=
  match goal with
  | |- context [let (_, _) := ?m in _] =>
      let H := fresh "Hrun" in
      let r := fresh "r" in
      let v := fresh "w" in
      destruct m as [r v] eqn:H; cbv beta iota;
      first [ apply update_balance_run in H as (H & _)
            | apply update_last_click_run in H as (H & _)
            | apply add_transaction_run in H as (H & _)
            | apply create_withdrawal_run in H as (H & _)
            | apply get_user_referrals_run in H as (_ & H & _)
            | apply get_user_run in H as (_ & H & _)
            | apply check_subscriptions_run in H as (_ & H) ]
  end.

Ltac last_reply :=
  match goal with
  | |- match ?o with _ => _ end _ = _ → _ => destruct o; intros [= _ <-]; lia
  end.

Lemma credit_click_errors (uid : Z) (name : option string) (u : user) (now : Z)
    (w w' : world) (reply : click_reply) :
  credit_click uid name u now w = (reply, w') → (errors w ≤ errors w')%nat.
Proof.
  unfold credit_click, bind. do 3 mono_step.
  destruct (truthy_int (referrer_id u)).
  - step Hblock rb wb. revert Hblock. do 2 mono_step. unfold ret.
    intros Hblock. injection Hblock as Hwb. subst wb.
    mono_step. last_reply.
  - step Hblock rb wb. injection Hblock as _ Hwb. subst wb.
    mono_step. last_reply.
Qed.

Lemma handle_click_conserves (uid : Z) (name : option string) (now : Z)
    (w w' : world) (reply : click_reply) :
  handle_click uid name now w = (reply, w') →
  errors w' = errors w →
  conserved (store w) → conserved (store w').
Proof.
  intros Hrun Hquiet Hd. revert Hrun. unfold handle_click, bind.
  step Hgate ok w1. apply check_subscriptions_run in Hgate as [Hs1 He1].
  destruct ok; cbn [negb]; [|intros [= _ <-]; by rewrite Hs1].
  step Hload o w2. apply get_user_run in Hload as (Hs2 & He2 & Hu & _).
  destruct o as [u|]; [|intros [= _ <-]; by rewrite Hs2, Hs1].
  specialize (Hu u eq_refl). cbv zeta.
  destruct (_ && _); [intros [= _ <-]; by rewrite Hs2, Hs1|].
  intros Hrun. pose proof (credit_click_errors _ _ _ _ _ _ _ Hrun) as He3.
  apply (credit_click_conserves uid name u now w2 w' reply Hrun); [lia | |].
  - rewrite Hs2, Hs1. rewrite Hs1 in Hu. eauto.
  - by rewrite Hs2, Hs1.
Qed.

Lemma handle_withdraw_conserves (rpc : database → Z → list Z) (uid : Z)
    (amount_arg : option float) (now : Z) (w w' : world) (reply : withdraw_reply) :
  handle_withdraw rpc uid amount_arg now w = (reply, w') →
  errors w' = errors w →
  conserved (store w) → conserved (store w').
Proof.
  intros Hrun Hquiet Hd. apply handle_withdraw_run in Hrun.
  destruct reply; try (by rewrite Hrun).
  destruct Hrun as (u & Hu & _ & _ & _ & _ & _ & Hq). rewrite (Hq Hquiet).
  apply conserved_entry; [by apply conserved_requested | done].
Qed.

Lemma cmd_start_conserves (uid : Z) (name : option string) (first : string)
    (start_arg : option Z) (now : Z) (w w' : world) (view : menu_view) :
  cmd_start uid name first start_arg now w = (view, w') →
  errors w' = errors w →
  (∀ t, t ∈ transactions (store w) → tx_user_id t ≠ uid) →
  conserved (store w) → conserved (store w').
Proof.
  intros Hrun Hquiet Hfresh Hd. revert Hrun. unfold cmd_start, bind.
  step Hnew r1 w1. apply create_user_run in Hnew as (He1 & Hnew). cbv zeta in Hnew.
  step Hgate ok w2. apply check_subscriptions_run in Hgate as (Hs2 & He2).
  assert (Hshow : ∀ w3 v, show_main_menu uid w3 = (v, w') →
            store w' = store w3 ∧ (errors w3 ≤ errors w')%nat).
  { intros w3 v. unfold show_main_menu, bind. step Hget o w4.
    apply get_user_run in Hget as (Hs4 & He4 & _). intros [= _ <-]. done. }
  intros Hrun.
  assert (Hend : store w' = store w2 ∧ (errors w2 ≤ errors w')%nat).
  { revert Hrun. destruct ok; cbn [negb].
    - intros Hrun. by apply Hshow in Hrun.
    - unfold show_sponsors_message, bind. step Hsp l w3.
      apply get_sponsors_run in Hsp as (Hs3 & He3).
      destruct l; [intros Hrun; apply Hshow in Hrun as [-> ?]; split; [done | lia]
                  |intros [= _ <-]; done]. }
  destruct Hend as [-> He3]. rewrite Hs2, Hnew by lia.
  intros id v. cbn [users transactions set_users].
  destruct (decide (id = uid)) as [->|Hne].
  - rewrite lookup_insert_eq. intros [= <-]. cbn [balance].
    by rewrite ledger_sum_no_entry.
  - rewrite lookup_insert_ne by done. apply Hd.
Qed.

Lemma quiet_step_conserves (rpc : database → Z → list Z) (d d' : database) :
  quiet_step rpc d d' → conserved d → conserved d'.
Proof.
  intros (op & fs & fs' & n & Hrun & Hop) Hd. revert Hrun.
  destruct op as [uid name now | uid amount_arg now | uid name first start_arg now];
    cbn [perform]; unfold bind; step Hrun reply w'; intros [= Hw'];
    subst w'.
  - by apply handle_click_conserves in Hrun.
  - by apply handle_withdraw_conserves in Hrun.
  - by apply cmd_start_conserves in Hrun.
Qed.

(** C2, as the code has it: balances equal ledger totals in every store
    reached from one where they do by operations during which no store
    request fails: clicks with their referral commissions, withdrawal
    requests, and [/start] for an id that has no ledger entry yet. *)
Theorem quiet_operations_conserve (rpc : database → Z → list Z) (d d' : database) :
  conserved d → rtc (quiet_step rpc) d d' → conserved d'.
Proof.
  intros Hd Hsteps. induction Hsteps as [d | d d1 d' Hstep _ IH]; [done|].
  apply IH. by apply (quiet_step_conserves rpc d).
Qed.

Lemma quiet_operations_conserve_witness : conserved Sample.commission_paid.
Proof.
  apply (quiet_operations_conserve (λ _ _, []) Sample.two_users).
  - intros uid u Hu. unfold Sample.two_users in Hu. cbn [users] in Hu.
    apply lookup_insert_Some in Hu as [[<- <-] | [_ Hu]]; [reflexivity|].
    apply lookup_insert_Some in Hu as [[<- <-] | [_ Hu]]; [reflexivity|].
    by rewrite lookup_empty in Hu.
  - apply rtc_once.
    exists (Click 2 (Some "bob") 1700000000), [], [], 0%nat.
    split; [reflexivity | exact I].
Defined.

(** C2 as stated fails in two ways.  A second [/start] of [bob], with every
    request going through, leaves his balance at 0 against a ledger total of
    0.2.  A withdrawal whose balance update raises leaves [dave]'s balance
    at 30 against a ledger total of 5. *)
Lemma balance_departs_from_ledger :
  conserved Sample.after_click
  ∧ (cmd_start 2 (Some "bob") "Bob" None 1700000100
       (World Sample.after_click [] 0)).2
    = World (Database (<[1 := Sample.alice]>
                         (<[2 := User 2 "bob" None 1700000100 0%float None]> ∅))
               [] ∅ [Transaction 2 0.2%float "click" "Кликер" 1700000000] [] 0)
        [] 0
  ∧ ledger_sum 2 [Transaction 2 0.2%float "click" "Кликер" 1700000000] = 0.2%float
  ∧ (0 =? 0.2)%float = false
  ∧ conserved Sample.funded
  ∧ (balance <$>
       users (store (handle_withdraw Sample.three_active 4 (Some 25%float) 1700000000
                       (World Sample.funded
                          [false; false; false; false; false; true] 0)).2) !! 4)
    = Some 30%float
  ∧ ledger_sum 4
      (transactions
         (store (handle_withdraw Sample.three_active 4 (Some 25%float) 1700000000
                   (World Sample.funded
                      [false; false; false; false; false; true] 0)).2))
    = 5%float
  ∧ (30 =? 5)%float = false.
Proof.
  repeat split; try (vm_compute; reflexivity).
  - intros uid u Hu. unfold Sample.after_click in Hu. cbn [users] in Hu.
    apply lookup_insert_Some in Hu as [[<- <-] | [_ Hu]]; [reflexivity|].
    apply lookup_insert_Some in Hu as [[<- <-] | [_ Hu]]; [reflexivity|].
    by rewrite lookup_empty in Hu.
  - intros uid u Hu. unfold Sample.funded in Hu. cbn [users] in Hu.
    apply lookup_insert_Some in Hu as [[<- <-] | [_ Hu]]; [reflexivity|].
    by rewrite lookup_empty in Hu.
Qed.

(** ** Rewarded clicks *)

(** A rewarded click passed the gate, loaded the row and ran the reward. *)
Lemma handle_click_rewarded (uid : Z) (name : option string) (now : Z)
    (w w' : world) (reward shown : float) :
  handle_click uid name now w = (ClickRewarded reward shown, w') →
  ∃ w1 w2 u,
    check_subscriptions uid w = (true, w1)
    ∧ get_user uid w1 = (Some u, w2)
    ∧ credit_click uid name u now w2 = (ClickRewarded reward shown, w').
Proof.
  unfold handle_click, bind. step Hgate ok w1.
  destruct ok; cbn [negb]; [|discriminate].
  step Hload o w2. destruct o as [u|]; [|discriminate]. cbv zeta.
  destruct (_ && _); [discriminate|]. intros Hrun. by exists w1, w2, u.
Qed.

(** The store a rewarded click leaves when none of its requests failed. *)
Lemma handle_click_quiet (uid : Z) (name : option string) (now : Z)
    (w w' : world) (u : user) (reward shown : float) :
  handle_click uid name now w = (ClickRewarded reward shown, w') →
  errors w' = errors w →
  users (store w) !! uid = Some u →
  subscription_complete (store w) uid
  ∧ store w'
    = commissioned uid name (referrer_id u) now (rewarded uid u now (store w)).
Proof.
  intros Hrun Hquiet Hu.
  apply handle_click_rewarded in Hrun as (w1 & w2 & u' & Hgate & Hload & Hrun).
  pose proof (check_subscriptions_run _ _ _ _ Hgate) as [Hs1 He1].
  pose proof (get_user_run _ _ _ _ Hload) as (Hs2 & He2 & Hu' & _).
  pose proof (credit_click_errors _ _ _ _ _ _ _ Hrun) as He3.
  specialize (Hu' u' eq_refl). rewrite Hs1, Hu in Hu'. injection Hu' as <-.
  split.
  - apply (check_subscriptions_answered uid w w1 true Hgate); [lia | done].
  - rewrite (credit_click_quiet uid name u u now w2 w' _ Hrun); [|lia|].
    + by rewrite Hs2, Hs1.
    + by rewrite Hs2, Hs1.
Qed.

(** C8, as the code has it: a rewarded click during which no store request
    fails, by a user whose referrer is another user with a row, sets the
    referrer's balance to the double sum of the old balance and the bonus
    and appends, after the click's own entry, one [referral_income] entry
    of the bonus whose description ends in the clicker's username, or id
    when there is none.  The bonus is the double product
    [0.2 * (10 / 100)], which is 0.020000000000000004. *)
Theorem referral_commission (uid r : Z) (name : option string) (now : Z)
    (w w' : world) (u ru : user) (reward shown : float) :
  handle_click uid name now w = (ClickRewarded reward shown, w') →
  errors w' = errors w →
  users (store w) !! uid = Some u →
  referrer_id u = Some r → r ≠ 0 → r ≠ uid →
  users (store w) !! r = Some ru →
  users (store w') !! r = Some (set_balance (balance ru + referral_bonus) ru)
  ∧ transactions (store w')
    = transactions (store w)
      ++ [Transaction uid 0.2%float "click" "Кликер" now;
          Transaction r referral_bonus "referral_income"
            ("10% от клика пользователя " +:+ str_or name (pretty uid)) now]
  ∧ referral_bonus = 0.020000000000000004%float.
Proof.
  intros Hrun Hquiet Hu Href Hnz Hne Hru.
  destruct (handle_click_quiet uid name now w w' u reward shown Hrun Hquiet Hu)
    as [_ ->].
  unfold commissioned. rewrite Href. cbn [truthy_int default].
  destruct (Z.eqb_spec r 0) as [|_]; [done|]. cbn [negb]. cbv zeta.
  assert (Hru' : users (rewarded uid u now (store w)) !! r = Some ru).
  { cbn [users rewarded logged clicked credited set_users].
    by rewrite !lookup_alter_ne. }
  change (id r) with r. rewrite Hru'. split; [|split; [|reflexivity]].
  - cbn [users logged credited set_users] in *. by rewrite lookup_alter_eq, Hru'.
  - cbn [transactions rewarded logged clicked credited set_users].
    by rewrite <- app_assoc.
Qed.

Lemma referral_commission_witness :
  users Sample.commission_paid !! 1
  = Some (set_balance (0 + referral_bonus) Sample.alice).
Proof.
  refine (proj1 (referral_commission 2 1 (Some "bob") 1700000000
                    (World Sample.two_users [] 0)
                    (World Sample.commission_paid [] 0)
                    Sample.bob Sample.alice 0.2%float 0.2%float
                    eq_refl eq_refl eq_refl eq_refl _ _ eq_refl));
    discriminate.
Defined.

(** C8 as stated fails on the amount and on the credit.  With every request
    going through, the referrer of a first click holds
    0.020000000000000004, which is not the double 0.02 that
    [0.2 * 10 / 100] gives.  When the referrer's balance update raises, the
    click is still rewarded and the [referral_income] entry is appended,
    with the referrer's balance left at 0. *)
Lemma commission_is_not_two_hundredths :
  handle_click 2 (Some "bob") 1700000000 (World Sample.two_users [] 0)
  = (ClickRewarded 0.2%float 0.2%float, World Sample.commission_paid [] 0)
  ∧ (balance <$> users Sample.commission_paid !! 1)
    = Some 0.020000000000000004%float
  ∧ (0.020000000000000004 =? 0.02)%float = false
  ∧ (0.2 * float_of_int 10 / float_of_int 100)%float = 0.02%float
  ∧ handle_click 2 (Some "bob") 1700000000
      (World Sample.two_users
         [false; false; false; false; false; false; false; true] 0)
    = (ClickRewarded 0.2%float 0.2%float,
       World (Database (<[1 := Sample.alice]> (<[2 := Sample.bob_clicked]> ∅))
                [] ∅ (transactions Sample.commission_paid) [] 0) [] 1)
  ∧ balance Sample.alice = 0%float.
Proof. repeat split; vm_compute; reflexivity. Qed.

(** ** Two clicks in one window *)

Lemma commissioned_sponsor_tables (uid : Z) (name : option string)
    (referrer : option Z) (u : user) (now : Z) (d : database) :
  sponsors (commissioned uid name referrer now (rewarded uid u now d)) = sponsors d
  ∧ user_sponsors (commissioned uid name referrer now (rewarded uid u now d))
    = user_sponsors d.
Proof.
  unfold commissioned. destruct (truthy_int referrer); [|done].
  cbv zeta. by destruct (users _ !! _).
Qed.

Lemma last_click_after_reward (uid : Z) (name : option string)
    (referrer : option Z) (u v : user) (now : Z) (d : database) :
  users d !! uid = Some u →
  users (commissioned uid name referrer now (rewarded uid u now d)) !! uid = Some v →
  last_click v = Some now.
Proof.
  intros Hu.
  assert (Hrow : users (rewarded uid u now d) !! uid
                 = Some (set_last_click now (set_balance (balance u + Config.CLICK_REWARD) u))).
  { cbn [users rewarded logged clicked credited set_users].
    by rewrite !lookup_alter_eq, Hu. }
  unfold commissioned. destruct (truthy_int referrer); [|by rewrite Hrow; intros [= <-]].
  cbv zeta. destruct (users _ !! default 0 referrer) as [ru|];
    cbn [users logged credited set_users];
    [|by rewrite Hrow; intros [= <-]].
  destruct (decide (default 0 referrer = uid)) as [->|Hne].
  - rewrite lookup_alter_eq, Hrow. by intros [= <-].
  - rewrite lookup_alter_ne, Hrow by done. by intros [= <-].
Qed.

(** C4 as stated fails in a single window.  A first click stamped [0] and a
    second one 1800 seconds later are both rewarded, with every request
    going through.  A first click whose [update_last_click] raises is
    rewarded, and so is a second click one second later.  A [/start] of
    the user between two clicks, sixty seconds apart, resets the row, and
    the second click is rewarded.  And [update_balance] is a read followed
    by a write of the sum: it uses two requests of the schedule. *)
Lemma two_rewards_in_one_window :
  (handle_click 1 None 0 (World Sample.two_users [] 0)).1
  = ClickRewarded 0.2%float 0.2%float
  ∧ (handle_click 1 None 1800
       (handle_click 1 None 0 (World Sample.two_users [] 0)).2).1
    = ClickRewarded 0.2%float 0.4%float
  ∧ (handle_click 1 None 1700000000
       (World Sample.two_users [false; false; false; false; true] 0)).1
    = ClickRewarded 0.2%float 0.2%float
  ∧ (handle_click 1 None 1700000001
       (handle_click 1 None 1700000000
          (World Sample.two_users [false; false; false; false; true] 0)).2).1
    = ClickRewarded 0.2%float 0.4%float
  ∧ handle_click 2 (Some "bob") 1700000000 (World Sample.two_users [] 0)
    = (ClickRewarded 0.2%float 0.2%float, World Sample.commission_paid [] 0)
  ∧ (handle_click 2 (Some "bob") 1700000060
       (cmd_start 2 (Some "bob") "Bob" (Some 1) 1700000030
          (World Sample.commission_paid [] 0)).2).1
    = ClickRewarded 0.2%float 0.2%float
  ∧ faults (update_balance 1 0.2%float
              (World Sample.two_users [false; false; true] 0)).2
    = [true].
Proof. repeat split; vm_compute; reflexivity. Qed.

(** * Further properties of the handlers *)

(** ** What the writers keep *)

Lemma same_identity_refl (u : user) : same_identity u u.
Proof. by repeat split. Qed.

Lemma users_kept_refl (m : gmap Z user) : users_kept m m.
Proof. intros k. destruct (m !! k); [apply same_identity_refl | done]. Qed.

Lemma users_kept_trans (m1 m2 m3 : gmap Z user) :
  users_kept m1 m2 → users_kept m2 m3 → users_kept m1 m3.
Proof.
  intros H12 H23 k. specialize (H12 k). specialize (H23 k).
  destruct (m1 !! k), (m2 !! k), (m3 !! k); try done.
  destruct H12 as (?&?&?&?&?), H23 as (?&?&?&?&?).
  repeat split; (congruence || auto).
Qed.

Lemma users_kept_alter (f : user → user) (uid : Z) (m : gmap Z user) :
  (∀ u, same_identity u (f u)) → users_kept m (alter f uid m).
Proof.
  intros Hf k. destruct (decide (k = uid)) as [->|Hne].
  - rewrite lookup_alter_eq. destruct (m !! uid); [apply Hf | done].
  - rewrite lookup_alter_ne by done. destruct (m !! k); [apply same_identity_refl | done].
Qed.

Lemma ledger_update_id (d : database) : ledger_update d (users d) [] = d.
Proof. destruct d. unfold ledger_update. cbn. by rewrite app_nil_r. Qed.

Lemma ledger_update_twice (d : database) (m1 m2 : gmap Z user)
    (l1 l2 : list transaction) :
  ledger_update (ledger_update d m1 l1) m2 l2 = ledger_update d m2 (l1 ++ l2).
Proof. unfold ledger_update. cbn. by rewrite app_assoc. Qed.

(** [update_balance], whatever happens to its requests, moves at most one
    balance. *)
Lemma update_balance_keeps (uid : Z) (amount : float) (w w' : world) (r : bool) :
  update_balance uid amount w = (r, w') →
  ∃ m', users_kept (users (store w)) m'
        ∧ store w' = ledger_update (store w) m' [].
Proof.
  intros (_ & [-> | (u & _ & Hjson & ->)] & _)%update_balance_run.
  - exists (users (store w)). by rewrite ledger_update_id; split; [apply users_kept_refl|].
  - eexists. split; [|unfold credited, set_users, ledger_update; by rewrite app_nil_r].
    apply users_kept_alter. intros v. by repeat split.
Qed.

Lemma update_last_click_keeps (uid timestamp : Z) (w w' : world) (r : bool) :
  update_last_click uid timestamp w = (r, w') →
  ∃ m', users_kept (users (store w)) m'
        ∧ store w' = ledger_update (store w) m' [].
Proof.
  intros (_ & [-> | ->] & _)%update_last_click_run.
  - exists (users (store w)). by rewrite ledger_update_id; split; [apply users_kept_refl|].
  - eexists. split; [|unfold clicked, set_users, ledger_update; by rewrite app_nil_r].
    apply users_kept_alter. intros v. by repeat split.
Qed.

Lemma add_transaction_keeps (uid : Z) (amount : float) (type description : string)
    (now : Z) (w w' : world) (r : bool) :
  add_transaction uid amount type description now w = (r, w') →
  ∃ new, (new = [] ∨ new = [Transaction uid amount type description now])
         ∧ store w' = ledger_update (store w) (users (store w)) new.
Proof.
  intros (_ & [-> | ->] & _)%add_transaction_run.
  - exists []. by rewrite ledger_update_id; split; [left|].
  - eexists. split; [by right | done].
Qed.

(** ** Clicks *)

(** The reward and the bonus of a click, whatever fails: identities stay,
    the ledger gains at most the click entry and then the referral entry,
    and a last read of the row decides the reply. *)
Lemma credit_click_last (uid : Z) (name : option string) (u : user) (now : Z)
    (w w' : world) (reply : click_reply) :
  credit_click uid name u now w = (reply, w') →
  ∃ w4 o m' l1 l2,
    (errors w ≤ errors w4)%nat
    ∧ users_kept (users (store w)) m'
    ∧ store w4 = ledger_update (store w) m' (l1 ++ l2)
    ∧ (l1 = [] ∨ l1 = [click_entry uid now])
    ∧ (l2 = []
       ∨ truthy_int (referrer_id u) = true
         ∧ l2 = [referral_entry (default 0 (referrer_id u)) uid name now])
    ∧ get_user uid w4 = (o, w')
    ∧ reply = match o with
              | Some u1 => ClickRewarded Config.CLICK_REWARD (balance u1)
              | None => ClickRaised
              end.
Proof.
  unfold credit_click, bind.
  step Hpay r1 w1. step Hstamp r2 w2. step Hlog r3 w3.
  pose proof (update_balance_run _ _ _ _ _ Hpay) as (He1 & _).
  pose proof (update_last_click_run _ _ _ _ _ Hstamp) as (He2 & _).
  pose proof (add_transaction_run _ _ _ _ _ _ _ _ Hlog) as (He3 & _).
  apply update_balance_keeps in Hpay as (m1 & Hk1 & Hs1).
  apply update_last_click_keeps in Hstamp as (m2 & Hk2 & Hs2).
  apply add_transaction_keeps in Hlog as (l1 & Hl1 & Hs3).
  rewrite Hs1 in Hk2, Hs2. cbn [users ledger_update] in Hk2.
  rewrite ledger_update_twice in Hs2.
  rewrite Hs2 in Hs3. cbn [users ledger_update] in Hs3.
  change (Database m2 _ _ _ _ _) with (ledger_update (store w) m2 []) in Hs3.
  rewrite ledger_update_twice in Hs3. cbn [app] in Hs3.
  assert (Hk : users_kept (users (store w)) m2) by (by eapply users_kept_trans).
  assert (Hlast : ∀ w4 m4 l2,
            (errors w ≤ errors w4)%nat →
            users_kept (users (store w)) m4 →
            store w4 = ledger_update (store w) m4 (l1 ++ l2) →
            (l2 = []
             ∨ truthy_int (referrer_id u) = true
               ∧ l2 = [referral_entry (default 0 (referrer_id u)) uid name now]) →
            (let (o, w5) := get_user uid w4 in
             match o with
             | Some u1 => ret (ClickRewarded Config.CLICK_REWARD (balance u1))
             | None => ret ClickRaised
             end w5) = (reply, w') →
            ∃ w4 o m' l1 l2,
              (errors w ≤ errors w4)%nat
              ∧ users_kept (users (store w)) m'
              ∧ store w4 = ledger_update (store w) m' (l1 ++ l2)
              ∧ (l1 = [] ∨ l1 = [click_entry uid now])
              ∧ (l2 = []
                 ∨ truthy_int (referrer_id u) = true
                   ∧ l2 = [referral_entry (default 0 (referrer_id u)) uid name now])
              ∧ get_user uid w4 = (o, w')
              ∧ reply = match o with
                        | Some u1 => ClickRewarded Config.CLICK_REWARD (balance u1)
                        | None => ClickRaised
                        end).
  { intros w4 m4 l2 He4 Hk4 Hs4 Hl2. step Hget o w5. intros Hend.
    exists w4, o, m4, l1, l2.
    assert (w' = w5) as -> by (destruct o; by injection Hend).
    repeat split; try done. destruct o; by injection Hend. }
  destruct (truthy_int (referrer_id u)) eqn:Href.
  - step Hblock rb wb. revert Hblock. step Hpay2 r4 w4. step Hlog2 r5 w5.
    unfold ret. intros Hblock. assert (wb = w5) as -> by congruence. clear Hblock.
    pose proof (update_balance_run _ _ _ _ _ Hpay2) as (He4 & _).
    pose proof (add_transaction_run _ _ _ _ _ _ _ _ Hlog2) as (He5 & _).
    apply update_balance_keeps in Hpay2 as (m4 & Hk4 & Hs4).
    apply add_transaction_keeps in Hlog2 as (l2 & Hl2 & Hs5).
    rewrite Hs3 in Hk4, Hs4. cbn [users ledger_update] in Hk4.
    rewrite ledger_update_twice, app_nil_r in Hs4.
    rewrite Hs4 in Hs5. cbn [users ledger_update] in Hs5.
    change (Database m4 _ _ _ _ _) with (ledger_update (store w) m4 l1) in Hs5.
    rewrite ledger_update_twice in Hs5.
    apply (Hlast w5 m4 l2); [lia | by eapply users_kept_trans | done |].
    destruct Hl2 as [-> | ->]; [by left | by right].
  - step Hblock rb wb. injection Hblock as _ <-.
    apply (Hlast w3 m2 []); [lia | done | by rewrite app_nil_r | by left].
Qed.

(** [handle_click] reaches the reward only behind both gates. *)
Lemma handle_click_cases (uid : Z) (name : option string) (now : Z)
    (w w' : world) (reply : click_reply) :
  handle_click uid name now w = (reply, w') →
  (store w' = store w
   ∧ (reply = ClickNotSubscribed ∨ reply = ClickNoUser
      ∨ ∃ u t, users (store w) !! uid = Some u ∧ last_click u = Some t
               ∧ t ≠ 0 ∧ now - t < Config.CLICK_COOLDOWN
               ∧ reply = ClickCooldown (Config.CLICK_COOLDOWN - (now - t))))
  ∨ ∃ u w2, users (store w) !! uid = Some u
            ∧ store w2 = store w ∧ (errors w ≤ errors w2)%nat
            ∧ (last_click u = None ∨ last_click u = Some 0
               ∨ ∃ t, last_click u = Some t ∧ Config.CLICK_COOLDOWN ≤ now - t)
            ∧ credit_click uid name u now w2 = (reply, w').
Proof.
  unfold handle_click, bind. step Hgate ok w1.
  apply check_subscriptions_run in Hgate as [Hs1 He1].
  destruct ok; cbn [negb]; [|intros [= <- <-]; left; auto].
  step Hload o w2. apply get_user_run in Hload as (Hs2 & He2 & Hu & _).
  destruct o as [u|]; [|intros [= <- <-]; left; split; [congruence | auto]].
  specialize (Hu u eq_refl). rewrite Hs1 in Hu. cbv zeta.
  destruct (last_click u) as [t|] eqn:Hl; cbn [truthy_int default from_option id andb].
  - destruct (Z.eqb_spec t 0) as [->|Hnz]; cbn [negb andb].
    + intros Hrun. right. exists u, w2. repeat split; auto; [congruence | lia].
    + destruct (Z.ltb_spec (now - t) Config.CLICK_COOLDOWN) as [Hyoung|Hold].
      * intros [= <- <-]. left. split; [congruence|]. right. right.
        exists u, t. by rewrite Hl.
      * intros Hrun. right. exists u, w2.
        repeat split; auto; [congruence | lia | eauto].
  - intros Hrun. right. exists u, w2. repeat split; auto; [congruence | lia].
Qed.

Lemma handle_click_run (uid : Z) (name : option string) (now : Z)
    (w w' : world) (reply : click_reply) :
  handle_click uid name now w = (reply, w') →
  match reply with
  | ClickNotSubscribed | ClickNoUser => store w' = store w
  | ClickCooldown remaining =>
      store w' = store w
      ∧ ∃ u t, users (store w) !! uid = Some u ∧ last_click u = Some t
               ∧ t ≠ 0 ∧ now - t < Config.CLICK_COOLDOWN
               ∧ remaining = Config.CLICK_COOLDOWN - (now - t)
  | ClickRewarded reward shown =>
      reward = Config.CLICK_REWARD
      ∧ ∃ v, users (store w') !! uid = Some v ∧ balance v = shown
  | ClickRaised => (errors w < errors w')%nat
  end.
Proof.
  intros [[Hsame Hreply] | (u & w2 & Hu & Hs2 & He2 & _ & Hrun)]%handle_click_cases.
  - destruct Hreply as [-> | [-> | (u & t & Hu & Hl & Hnz & Hyoung & ->)]]; try done.
    split; [done|]. by exists u, t.
  - apply credit_click_last in Hrun
      as (w4 & o & m' & l1 & l2 & He4 & Hk & Hs4 & _ & _ & Hget & ->).
    apply get_user_run in Hget as (Hs5 & He5 & Hsome & Hquiet).
    rewrite Hs2 in Hk, Hs4.
    destruct o as [v|].
    + split; [done|]. exists v. split; [|done]. rewrite Hs5. by apply Hsome.
    + destruct (decide (errors w' = errors w4)) as [Heq|Hne]; [|lia].
      specialize (Hquiet Heq). rewrite Hs4 in Hquiet. cbn in Hquiet.
      specialize (Hk uid). rewrite Hu, <- Hquiet in Hk. done.
Qed.

Lemma handle_click_keeps (uid : Z) (name : option string) (now : Z)
    (w w' : world) (reply : click_reply) :
  handle_click uid name now w = (reply, w') →
  ∃ m' l1 l2,
    users_kept (users (store w)) m'
    ∧ store w' = ledger_update (store w) m' (l1 ++ l2)
    ∧ (l1 = [] ∨ l1 = [click_entry uid now])
    ∧ (l2 = [] ∨ ∃ r, r ≠ 0 ∧ l2 = [referral_entry r uid name now]).
Proof.
  intros [[Hsame _] | (u & w2 & Hu & Hs2 & He2 & _ & Hrun)]%handle_click_cases.
  - exists (users (store w)), [], []. rewrite ledger_update_id.
    repeat split; auto using users_kept_refl.
  - apply credit_click_last in Hrun
      as (w4 & o & m' & l1 & l2 & He4 & Hk & Hs4 & Hl1 & Hl2 & Hget & _).
    apply get_user_run in Hget as (Hs5 & _). rewrite Hs2 in Hk, Hs4.
    exists m', l1, l2. repeat split; try done; [congruence|].
    destruct Hl2 as [-> | [Htruthy ->]]; [by left | right].
    destruct (referrer_id u) as [r|]; [|done]. cbn in *.
    exists r. split; [|done]. by destruct (Z.eqb_spec r 0).
Qed.

(** X1: a click that is answered with anything but the reward (not
    subscribed, no such user, cooldown) leaves the store as it was, whichever
    requests fail. *)
Theorem rejected_click_changes_nothing (uid : Z) (name : option string) (now : Z)
    (w w' : world) (reply : click_reply) :
  handle_click uid name now w = (reply, w') →
  (∀ reward shown, reply ≠ ClickRewarded reward shown) →
  reply ≠ ClickRaised →
  store w' = store w.
Proof.
  intros Hrun%handle_click_run Hnot Hnor.
  destruct reply; try done; [by destruct Hrun | by destruct (Hnot reward shown_balance)].
Qed.

Lemma rejected_click_changes_nothing_witness :
  store (handle_click 2 (Some "bob") 1700001800 (World Sample.after_click [] 0)).2
  = Sample.after_click.
Proof.
  refine (rejected_click_changes_nothing 2 (Some "bob") 1700001800
            (World Sample.after_click [] 0)
            (handle_click 2 (Some "bob") 1700001800 (World Sample.after_click [] 0)).2
            (ClickCooldown 1800) eq_refl _ _); discriminate.
Defined.

(** X2: the waiting time a click is answered with is at least one second;
    it is [CLICK_COOLDOWN] minus the age of the stored stamp, so at most
    [CLICK_COOLDOWN] unless the stamp lies in the future. *)
Theorem cooldown_answer_is_positive (uid : Z) (name : option string) (now : Z)
    (w w' : world) (remaining : Z) :
  handle_click uid name now w = (ClickCooldown remaining, w') →
  0 < remaining
  ∧ ∃ u t, users (store w) !! uid = Some u ∧ last_click u = Some t
           ∧ remaining = Config.CLICK_COOLDOWN - (now - t)
           ∧ (t ≤ now → remaining ≤ Config.CLICK_COOLDOWN).
Proof.
  intros [_ (u & t & Hu & Hl & _ & Hyoung & ->)]%handle_click_run.
  split; [lia|]. exists u, t. repeat split; try done. lia.
Qed.

Lemma cooldown_answer_is_positive_witness : 0 < 1800.
Proof.
  exact (proj1 (cooldown_answer_is_positive 2 (Some "bob") 1700001800
                  (World Sample.after_click [] 0) (World Sample.after_click [] 0)
                  1800 eq_refl)).
Defined.

(** X3: the balance a rewarded click shows is the balance the store holds
    for the user when the handler ends, also when some of the writes
    failed; the reward it names is [CLICK_REWARD]. *)
Theorem rewarded_click_shows_stored_balance (uid : Z) (name : option string)
    (now : Z) (w w' : world) (reward shown : float) :
  handle_click uid name now w = (ClickRewarded reward shown, w') →
  reward = Config.CLICK_REWARD
  ∧ ∃ v, users (store w') !! uid = Some v ∧ balance v = shown.
Proof. by intros Hrun%handle_click_run. Qed.

Lemma rewarded_click_shows_stored_balance_witness :
  ∃ v, users (store (handle_click 1 None 1700000000
                       (World Sample.two_users
                          [false; false; false; true] 0)).2) !! 1 = Some v
       ∧ balance v = 0%float.
Proof.
  exact (proj2 (rewarded_click_shows_stored_balance 1 None 1700000000
                  (World Sample.two_users [false; false; false; true] 0)
                  (handle_click 1 None 1700000000
                     (World Sample.two_users [false; false; false; true] 0)).2
                  0.2%float 0%float eq_refl)).
Defined.

(** X4: whichever requests fail, a click leaves the sponsor tables and the
    withdrawals alone, adds and removes no user, changes no user's id,
    name, referrer or creation time, turns no finite balance into an
    infinite one or a NaN, and appends to the ledger at most the
    click entry of the user followed by at most one referral entry for a
    nonzero referrer. *)
Theorem click_keeps_the_books (uid : Z) (name : option string) (now : Z)
    (w w' : world) (reply : click_reply) :
  handle_click uid name now w = (reply, w') →
  ∃ m' l1 l2,
    users_kept (users (store w)) m'
    ∧ store w'
      = Database m' (sponsors (store w)) (user_sponsors (store w))
          (transactions (store w) ++ l1 ++ l2)
          (withdrawals (store w)) (withdrawals_seq (store w))
    ∧ (l1 = [] ∨ l1 = [Transaction uid Config.CLICK_REWARD "click" "Кликер" now])
    ∧ (l2 = []
       ∨ ∃ r, r ≠ 0
              ∧ l2 = [Transaction r referral_bonus "referral_income"
                        ("10% от клика пользователя " +:+ str_or name (pretty uid))
                        now]).
Proof. apply handle_click_keeps. Qed.

Lemma click_keeps_the_books_witness :
  ∃ m' l1 l2,
    users_kept (users Sample.two_users) m'
    ∧ Sample.commission_paid
      = Database m' [] ∅ ([] ++ l1 ++ l2) [] 0
    ∧ (l1 = [] ∨ l1 = [Transaction 2 Config.CLICK_REWARD "click" "Кликер" 1700000000])
    ∧ (l2 = []
       ∨ ∃ r, r ≠ 0
              ∧ l2 = [Transaction r referral_bonus "referral_income"
                        ("10% от клика пользователя " +:+ str_or (Some "bob") (pretty 2))
                        1700000000]).
Proof.
  exact (click_keeps_the_books 2 (Some "bob") 1700000000
           (World Sample.two_users [] 0) (World Sample.commission_paid [] 0)
           (ClickRewarded 0.2%float 0.2%float) eq_refl).
Defined.

(** ** The reading handlers *)

Lemma show_main_menu_run (sender : Z) (w w' : world) (view : menu_view) :
  show_main_menu sender w = (view, w') →
  store w' = store w ∧ (errors w ≤ errors w')%nat.
Proof.
  unfold show_main_menu, bind. step Hget o w1.
  apply get_user_run in Hget as (Hs & He & _). by intros [= _ <-].
Qed.

Lemma show_sponsors_message_run (sender uid : Z) (w w' : world) (view : menu_view) :
  show_sponsors_message sender uid w = (view, w') →
  store w' = store w ∧ (errors w ≤ errors w')%nat.
Proof.
  unfold show_sponsors_message, bind. step Hsp l w1.
  apply get_sponsors_run in Hsp as (Hs & He).
  destruct l; [|by intros [= _ <-]].
  intros [Hs' He']%show_main_menu_run. split; [congruence | lia].
Qed.

(** What a profile shows, and that showing it changes nothing. *)
Lemma handle_profile_run (rpc : database → Z → list Z) (uid now : Z)
    (w w' : world) (reply : profile_reply) :
  handle_profile rpc uid now w = (reply, w') →
  store w' = store w
  ∧ match reply with
    | Profile shown total active next_click =>
        ∃ u, users (store w) !! uid = Some u
             ∧ shown = balance u
             ∧ (active = 0 ∨ active = Z.of_nat (length (rpc (store w) uid)))
             ∧ next_click
               = match last_click u with
                 | Some t =>
                     if negb (t =? 0) && (now - t <? Config.CLICK_COOLDOWN)
                     then Some (Config.CLICK_COOLDOWN - (now - t))
                     else None
                 | None => None
                 end
             ∧ (errors w' = errors w → subscription_complete (store w) uid)
    | _ => True
    end.
Proof.
  unfold handle_profile, bind. step Hgate ok w1.
  pose proof (check_subscriptions_answered uid w w1 ok Hgate) as Hans.
  apply check_subscriptions_run in Hgate as [Hs1 He1].
  destruct ok; cbn [negb]; [|by intros [= <- <-]].
  step Hload o w2. apply get_user_run in Hload as (Hs2 & He2 & Hu & _).
  destruct o as [u|]; [|intros [= <- <-]; split; [congruence | done]].
  specialize (Hu u eq_refl). rewrite Hs1 in Hu.
  step Hrefs refs w3. apply get_user_referrals_run in Hrefs as (Hs3 & He3 & Hact & _).
  cbv zeta. intros [= <- <-]. split; [congruence|].
  exists u. rewrite Hs2, Hs1 in Hact. repeat split; try done.
  - destruct (last_click u) as [t|]; [|done]. cbn.
    by destruct (negb (t =? 0)), (now - t <? Config.CLICK_COOLDOWN).
  - intros Hq. apply Hans; [lia | done].
Qed.

(** X5: the handlers that only show something (profile, referral page,
    withdrawal menu, earn menu, main menu, sponsors message) and the
    subscription gate itself leave the store as it was, whichever requests
    fail. *)
Theorem readers_change_nothing (rpc : database → Z → list Z)
    (uid bot_id now : Z) (w : world) :
  store (handle_profile rpc uid now w).2 = store w
  ∧ store (handle_referral rpc uid w).2 = store w
  ∧ store (handle_withdraw_menu uid w).2 = store w
  ∧ store (handle_earn uid bot_id w).2 = store w
  ∧ store (show_main_menu uid w).2 = store w
  ∧ store (show_sponsors_message bot_id uid w).2 = store w
  ∧ store (check_subscriptions uid w).2 = store w
  ∧ store (get_user_referrals rpc uid w).2 = store w.
Proof.
  repeat split.
  - destruct (handle_profile rpc uid now w) as [r w'] eqn:H.
    by apply handle_profile_run in H as [H _].
  - destruct (handle_referral rpc uid w) as [r w'] eqn:H. revert H.
    unfold handle_referral, bind. step Hgate ok w1.
    apply check_subscriptions_run in Hgate as [Hs1 _].
    destruct ok; cbn [negb]; [|by intros [= _ <-]].
    step Hrefs refs w2. apply get_user_referrals_run in Hrefs as (Hs2 & _).
    intros [= _ <-]. cbn. congruence.
  - destruct (handle_withdraw_menu uid w) as [r w'] eqn:H. revert H.
    unfold handle_withdraw_menu, bind. step Hgate ok w1.
    apply check_subscriptions_run in Hgate as [Hs1 _].
    by destruct ok; intros [= _ <-].
  - destruct (handle_earn uid bot_id w) as [r w'] eqn:H. revert H.
    unfold handle_earn, bind. step Hgate ok w1.
    apply check_subscriptions_run in Hgate as [Hs1 _].
    destruct ok; cbn [negb]; [by intros [= _ <-]|].
    step Hshow v w2. apply show_sponsors_message_run in Hshow as [Hs2 _].
    intros [= _ <-]. cbn. congruence.
  - destruct (show_main_menu uid w) as [r w'] eqn:H.
    by apply show_main_menu_run in H as [H _].
  - destruct (show_sponsors_message bot_id uid w) as [r w'] eqn:H.
    by apply show_sponsors_message_run in H as [H _].
  - destruct (check_subscriptions uid w) as [r w'] eqn:H.
    by apply check_subscriptions_run in H as [H _].
  - destruct (get_user_referrals rpc uid w) as [r w'] eqn:H.
    by apply get_user_referrals_run in H as (H & _).
Qed.

(** With no request failing, the reward of a click ends in the rewarded
    reply: the last read finds the row. *)
Lemma credit_click_quiet_reply (uid : Z) (name : option string) (u : user)
    (now : Z) (w w' : world) (reply : click_reply) :
  credit_click uid name u now w = (reply, w') →
  errors w' = errors w →
  is_Some (users (store w) !! uid) →
  ∃ shown, reply = ClickRewarded Config.CLICK_REWARD shown.
Proof.
  intros Hrun Hquiet [v Hv].
  apply credit_click_last in Hrun
    as (w4 & o & m' & l1 & l2 & He4 & Hk & Hs4 & _ & _ & Hget & ->).
  apply get_user_run in Hget as (_ & He5 & _ & Hq).
  specialize (Hq ltac:(lia)). rewrite Hs4 in Hq. cbn in Hq.
  specialize (Hk uid). rewrite Hv, <- Hq in Hk. destruct o; [eauto | done].
Qed.

(** X6: a profile and a click agree on the cooldown.  When a profile was
    shown with no request failing, a click at the same time on the same
    store, with no request failing either, is answered with the waiting time
    the profile showed, or rewarded when the profile showed none. *)
Theorem profile_foretells_click (rpc : database → Z → list Z) (uid now : Z)
    (name : option string) (w w1 w2 w3 : world) (shown : float)
    (total active : Z) (next_click : option Z) (reply : click_reply) :
  handle_profile rpc uid now w = (Profile shown total active next_click, w1) →
  errors w1 = errors w →
  store w2 = store w →
  handle_click uid name now w2 = (reply, w3) →
  errors w3 = errors w2 →
  match next_click with
  | Some remaining => reply = ClickCooldown remaining
  | None => ∃ shown', reply = ClickRewarded Config.CLICK_REWARD shown'
  end.
Proof.
  intros [_ (u & Hu & _ & _ & -> & Hsub)]%handle_profile_run Hq1 Hsame Hclick Hq2.
  specialize (Hsub Hq1).
  destruct (check_subscriptions uid w2) as [ok wa] eqn:Hgate.
  pose proof (check_subscriptions_answered uid w2 wa ok Hgate) as Hans.
  pose proof (check_subscriptions_run _ _ _ _ Hgate) as [Hsa Hea].
  destruct (get_user uid wa) as [o wb] eqn:Hload.
  pose proof (get_user_run _ _ _ _ Hload) as (Hsb & Heb & _ & Hrow).
  assert (He3 : (errors wa ≤ errors w3)%nat ∧ (ok = true → (errors wb ≤ errors w3)%nat)).
  { revert Hclick. unfold handle_click, bind. rewrite Hgate.
    destruct ok; cbn [negb]; [|intros [= _ <-]; split; [lia | done]].
    rewrite Hload. destruct o as [v|]; [|intros [= _ <-]; lia]. cbv zeta.
    destruct (_ && _); [intros [= _ <-]; lia|].
    intros Hrun%credit_click_errors. lia. }
  destruct He3 as [He3 He4].
  assert (ok = true) as ->.
  { apply Hans; [lia | by rewrite Hsame]. }
  specialize (He4 eq_refl).
  rewrite Hrow in Hload by lia. rewrite Hsa, Hsame, Hu in Hload.
  rewrite (handle_click_past_gate uid name now w2 wa wb u Hgate Hload) in Hclick.
  assert (Hrow' : is_Some (users (store wb) !! uid)).
  { rewrite Hsb, Hsa, Hsame, Hu. eauto. }
  destruct (last_click u) as [t|]; cbn in Hclick |- *.
  - destruct (negb (t =? 0)), (now - t <? Config.CLICK_COOLDOWN);
      cbn in Hclick |- *; try (by injection Hclick as <- _).
    all: by apply credit_click_quiet_reply in Hclick; [| lia |].
  - by apply credit_click_quiet_reply in Hclick; [| lia |].
Qed.

Lemma profile_foretells_click_witness :
  (handle_click 2 (Some "bob") 1700001800 (World Sample.after_click [] 0)).1
  = ClickCooldown 1800.
Proof.
  exact (profile_foretells_click (λ _ _, []) 2 1700001800 (Some "bob")
           (World Sample.after_click [] 0) (World Sample.after_click [] 0)
           (World Sample.after_click [] 0)
           (handle_click 2 (Some "bob") 1700001800 (World Sample.after_click [] 0)).2
           0.2%float 0 0 (Some 1800)
           (handle_click 2 (Some "bob") 1700001800 (World Sample.after_click [] 0)).1
           eq_refl eq_refl eq_refl eq_refl eq_refl).
Defined.

(** ** Withdrawal requests *)

(** A withdrawal request, whatever fails: identities stay, and either
    nothing is written or the pending row is, followed by at most the
    debit and at most the ledger entry. *)
Lemma handle_withdraw_keeps (rpc : database → Z → list Z) (uid : Z)
    (amount_arg : option float) (now : Z) (w w' : world) (reply : withdraw_reply) :
  handle_withdraw rpc uid amount_arg now w = (reply, w') →
  (store w' = store w ∧ ∀ id amount, reply ≠ WithdrawCreated id amount)
  ∨ ∃ amount m' new,
      amount_arg = Some amount
      ∧ PrimFloat.is_finite amount = true
      ∧ reply = WithdrawCreated (withdrawals_seq (store w) + 1) amount
      ∧ users_kept (users (store w)) m'
      ∧ (new = []
         ∨ new = [Transaction uid (- amount) "withdrawal"
                    ("Вывод #" +:+ pretty (withdrawals_seq (store w) + 1)) now])
      ∧ store w'
        = Database m' (sponsors (store w)) (user_sponsors (store w))
            (transactions (store w) ++ new)
            (withdrawals (store w)
             ++ [Withdrawal (withdrawals_seq (store w) + 1) uid amount "pending" now])
            (withdrawals_seq (store w) + 1).
Proof.
  unfold handle_withdraw.
  destruct amount_arg as [amount|]; [|intros [= <- <-]; by left].
  unfold bind. step Hload o w1.
  apply get_user_run in Hload as (Hs1 & _).
  destruct o as [u|]; [|intros [= <- <-]; left; split; [congruence | done]].
  destruct (balance u <? amount)%float;
    [intros [= <- <-]; left; split; [congruence | done]|].
  step Hrefs refs w2. apply get_user_referrals_run in Hrefs as (Hs2 & _).
  destruct (refs.2 <? 3); [intros [= <- <-]; left; split; [congruence | done]|].
  step Hrow o w3. apply create_withdrawal_run in Hrow as (_ & Hrow).
  destruct o as [row|]; [|intros [= <- <-]; left; split; [congruence | done]].
  destruct Hrow as (-> & Hjson & Hs3). cbn [wd_id].
  step Hupd r4 w4. step Hlog r5 w5. intros [= <- <-].
  apply update_balance_keeps in Hupd as (m' & Hk & Hs4).
  apply add_transaction_keeps in Hlog as (new & Hnew & Hs5).
  rewrite Hs2, Hs1 in Hs3. rewrite Hs3 in Hk, Hs4. cbn in Hk.
  rewrite Hs4 in Hs5. rewrite Hs2, Hs1 in Hnew |- *.
  right. exists amount, m', new. repeat split; try done.
  rewrite Hs5. unfold ledger_update, requested. cbn. by rewrite app_nil_r.
Qed.

(** X7: whichever requests fail, a withdrawal request either writes
    nothing, and then its reply is not the created one, or it is answered
    with the created reply and has appended exactly one row, pending, for
    the caller, with the payload's finite amount and the next id; in that
    case the ledger gained at most the matching entry, no user changed
    identity and no finite balance became an infinite one or a NaN.  The
    sponsor tables are never touched. *)
Theorem withdrawal_request_keeps_the_books (rpc : database → Z → list Z)
    (uid : Z) (amount_arg : option float) (now : Z) (w w' : world)
    (reply : withdraw_reply) :
  handle_withdraw rpc uid amount_arg now w = (reply, w') →
  (store w' = store w ∧ ∀ id amount, reply ≠ WithdrawCreated id amount)
  ∨ ∃ amount m' new,
      amount_arg = Some amount
      ∧ PrimFloat.is_finite amount = true
      ∧ reply = WithdrawCreated (withdrawals_seq (store w) + 1) amount
      ∧ users_kept (users (store w)) m'
      ∧ (new = []
         ∨ new = [Transaction uid (- amount) "withdrawal"
                    ("Вывод #" +:+ pretty (withdrawals_seq (store w) + 1)) now])
      ∧ store w'
        = Database m' (sponsors (store w)) (user_sponsors (store w))
            (transactions (store w) ++ new)
            (withdrawals (store w)
             ++ [Withdrawal (withdrawals_seq (store w) + 1) uid amount "pending" now])
            (withdrawals_seq (store w) + 1).
Proof. apply handle_withdraw_keeps. Qed.

Lemma withdrawal_request_keeps_the_books_witness :
  store (handle_withdraw Sample.three_active 4 (Some 50%float) 1700000000
           (World Sample.funded [] 0)).2
  = Sample.funded.
Proof.
  destruct (withdrawal_request_keeps_the_books Sample.three_active 4
              (Some 50%float) 1700000000 (World Sample.funded [] 0)
              (World Sample.funded [] 0) (WithdrawInsufficientBalance 30%float)
              eq_refl) as [[Hsame _] | (a & m' & new & _ & _ & Hreply & _)].
  - exact Hsame.
  - discriminate Hreply.
Defined.

(** X8: with fewer than three rows from [get_active_referrals], no
    withdrawal request creates a row or changes the store, whatever the
    payload and whichever requests fail. *)
Theorem too_few_referrals_block_withdrawal (rpc : database → Z → list Z)
    (uid : Z) (amount_arg : option float) (now : Z) (w w' : world)
    (reply : withdraw_reply) :
  handle_withdraw rpc uid amount_arg now w = (reply, w') →
  Z.of_nat (length (rpc (store w) uid)) < 3 →
  store w' = store w ∧ ∀ id amount, reply ≠ WithdrawCreated id amount.
Proof.
  intros Hrun Hfew. pose proof (handle_withdraw_run _ _ _ _ _ _ _ Hrun) as Heff.
  destruct reply; try (split; [done | discriminate]).
  destruct Heff as (u & _ & _ & _ & Hthree & _). lia.
Qed.

Lemma too_few_referrals_block_withdrawal_witness :
  store (handle_withdraw (λ _ _, [11; 12]) 4 (Some 25%float) 1700000000
           (World Sample.funded [] 0)).2
  = Sample.funded.
Proof.
  refine (proj1 (too_few_referrals_block_withdrawal (λ _ _, [11; 12]) 4
                   (Some 25%float) 1700000000 (World Sample.funded [] 0)
                   (handle_withdraw (λ _ _, [11; 12]) 4 (Some 25%float) 1700000000
                      (World Sample.funded [] 0)).2
                   (WithdrawInsufficientReferrals 2) eq_refl _)).
  reflexivity.
Defined.

(** X9: when either request of [get_user_referrals] raises, the method
    answers [(0, 0)], so a withdrawal request of a user whose balance covers
    the amount is answered with zero active referrals and writes nothing,
    however many referrals the user has. *)
Theorem failed_referral_query_reads_as_none (rpc : database → Z → list Z)
    (uid : Z) (amount : float) (now : Z) (d : database) (u : user)
    (fs : list bool) (n : nat) :
  users d !! uid = Some u →
  (balance u <? amount)%float = false →
  get_user_referrals rpc uid (World d (true :: fs) n) = ((0, 0), World d fs (S n))
  ∧ get_user_referrals rpc uid (World d (false :: true :: fs) n)
    = ((0, 0), World d fs (S n))
  ∧ handle_withdraw rpc uid (Some amount) now (World d (false :: true :: fs) n)
    = (WithdrawInsufficientReferrals 0, World d fs (S n))
  ∧ handle_withdraw rpc uid (Some amount) now
      (World d (false :: false :: true :: fs) n)
    = (WithdrawInsufficientReferrals 0, World d fs (S n)).
Proof.
  intros Hu Hcover. repeat split; try reflexivity.
  - unfold handle_withdraw, get_user, get_user_referrals; run. by rewrite Hu, Hcover.
  - unfold handle_withdraw, get_user, get_user_referrals; run. by rewrite Hu, Hcover.
Qed.

Lemma failed_referral_query_reads_as_none_witness :
  handle_withdraw Sample.three_active 4 (Some 25%float) 1700000000
    (World Sample.funded [false; false; true] 0)
  = (WithdrawInsufficientReferrals 0, World Sample.funded [] 1).
Proof.
  exact (proj2 (proj2 (proj2
           (failed_referral_query_reads_as_none Sample.three_active 4 25%float
              1700000000 Sample.funded Sample.dave [] 0 eq_refl eq_refl)))).
Defined.

(** ** The writing methods *)

Lemma update_balance_refused (uid : Z) (amount : float) (w w' : world) :
  update_balance uid amount w = (false, w') → store w' = store w.
Proof.
  unfold update_balance, bind. step Hget o w1.
  apply get_user_run in Hget as (Hs1 & _ & Hu & _).
  destruct o as [u|]; [|by intros [= <-]]. specialize (Hu u eq_refl).
  destruct w1 as [d1 [|[] fs1] n1]; cbn in Hs1; subst d1; run;
    destruct (json_number (balance u + amount)); cbn;
    try (by intros [= <-]).
  all: rewrite Hu; rewrite bool_decide_eq_true_2 by eauto; discriminate.
Qed.

Lemma update_last_click_refused (uid timestamp : Z) (w w' : world) :
  update_last_click uid timestamp w = (false, w') → store w' = store w.
Proof.
  by_schedule w; try (by intros [= <-]).
  all: intros [= Hnone <-]; cbn.
  all: apply bool_decide_eq_false in Hnone; rewrite <- eq_None_not_Some in Hnone.
  all: destruct d; unfold set_users; cbn in *; f_equal.
  all: apply alter_id; intros x Hx; congruence.
Qed.

(** X10: a writing method that answers [False] (or [None]) has written
    nothing, whether its request raised, its number had no JSON spelling,
    or its row was not there. *)
Theorem refused_writes_change_nothing (uid : Z) (amount : float)
    (timestamp now : Z) (type description : string) (name : option string)
    (referrer : option Z) (w : world) :
  ((update_balance uid amount w).1 = false →
   store (update_balance uid amount w).2 = store w)
  ∧ ((update_last_click uid timestamp w).1 = false →
     store (update_last_click uid timestamp w).2 = store w)
  ∧ ((add_transaction uid amount type description now w).1 = false →
     store (add_transaction uid amount type description now w).2 = store w)
  ∧ ((create_user uid name referrer now w).1 = false →
     store (create_user uid name referrer now w).2 = store w)
  ∧ ((create_withdrawal uid amount now w).1 = None →
     store (create_withdrawal uid amount now w).2 = store w).
Proof.
  repeat split.
  - destruct (update_balance uid amount w) as [r w'] eqn:H. cbn. intros ->.
    by apply update_balance_refused in H.
  - destruct (update_last_click uid timestamp w) as [r w'] eqn:H. cbn. intros ->.
    by apply update_last_click_refused in H.
  - destruct w as [d [|[] fs] n]; run; by destruct (json_number amount).
  - by destruct w as [d [|[] fs] n].
  - destruct w as [d [|[] fs] n]; run; by destruct (json_number amount).
Qed.

Lemma refused_writes_change_nothing_witness :
  store (update_last_click 9 1700000000 (World Sample.two_users [] 0)).2
  = Sample.two_users.
Proof.
  exact (proj1 (proj2 (refused_writes_change_nothing 9 0%float 1700000000 0
                         "" "" None None (World Sample.two_users [] 0)))
           eq_refl).
Defined.

(** ** Registration *)

(** The row [cmd_start] sends to the store. *)
Lemma cmd_start_run (uid : Z) (name : option string) (first : string)
    (start_arg : option Z) (now : Z) (w w' : world) (view : menu_view) :
  cmd_start uid name first start_arg now w = (view, w') →
  let row :=
    User uid (str_or (Some (str_or name first)) ("user_" +:+ pretty uid))
      match start_arg with
      | Some r => if r =? uid then None else Some r
      | None => None
      end now 0%float None in
  (store w' = store w ∨ store w' = set_users (insert uid row) (store w))
  ∧ (errors w' = errors w → store w' = set_users (insert uid row) (store w)).
Proof.
  unfold cmd_start, bind. cbv zeta. step Hnew r1 w1. step Hgate ok w2.
  pose proof (create_user_run _ _ _ _ _ _ _ Hnew) as (He1 & Hq).
  apply check_subscriptions_run in Hgate as (Hs2 & He2).
  assert (Hs1 : store w1 = store w
                ∨ store w1 = set_users (insert uid
                    (User uid (str_or (Some (str_or name first)) ("user_" +:+ pretty uid))
                       match start_arg with
                       | Some r => if r =? uid then None else Some r
                       | None => None
                       end now 0%float None)) (store w)).
  { revert Hnew. by_schedule w; intros [= _ <-]; auto. }
  intros Hrun.
  assert (Hend : store w' = store w2 ∧ (errors w2 ≤ errors w')%nat).
  { revert Hrun. destruct ok; cbn [negb].
    - apply show_main_menu_run.
    - apply show_sponsors_message_run. }
  destruct Hend as [-> He3]. rewrite Hs2. split; [done|].
  intros Hquiet. apply Hq. lia.
Qed.

(** X11: [/start] never stores a user as their own referrer and never
    stores an empty name.  The row it sends is fully determined: the
    user's id, balance 0, no last click, the time of the call, as referrer
    the id of the link unless that is the user's own (then none, as with
    no link), and as name the Telegram username if there is a non-empty
    one, else the first name if that is non-empty, else [user_<id>].
    Whichever requests fail, the store afterwards is the old one or the
    old one with that row under the user's id; it is the latter when no
    request failed. *)
Theorem start_stores_a_clean_row (uid : Z) (name : option string) (first : string)
    (start_arg : option Z) (now : Z) (w w' : world) (view : menu_view) :
  cmd_start uid name first start_arg now w = (view, w') →
  ∃ row,
    row = User uid
            match name with
            | Some (String c s) => String c s
            | _ => match first with
                   | String c s => String c s
                   | EmptyString => "user_" +:+ pretty uid
                   end
            end
            match start_arg with
            | Some r => if r =? uid then None else Some r
            | None => None
            end
            now 0%float None
    ∧ user_id row = uid ∧ balance row = 0%float ∧ last_click row = None
    ∧ created_at row = now
    ∧ referrer_id row ≠ Some uid
    ∧ (∀ r, start_arg = Some r → r ≠ uid → referrer_id row = Some r)
    ∧ (start_arg = Some uid → referrer_id row = None)
    ∧ (start_arg = None → referrer_id row = None)
    ∧ username row ≠ ""
    ∧ (∀ s, name = Some s → s ≠ "" → username row = s)
    ∧ (name = None ∨ name = Some "" → first ≠ "" → username row = first)
    ∧ (name = None ∨ name = Some "" → first = "" →
       username row = "user_" +:+ pretty uid)
    ∧ (store w' = store w ∨ store w' = set_users (insert uid row) (store w))
    ∧ (errors w' = errors w → store w' = set_users (insert uid row) (store w)).
Proof.
  intros Hrun%cmd_start_run. cbv zeta in Hrun.
  assert (Hname : str_or (Some (str_or name first)) ("user_" +:+ pretty uid)
                  = match name with
                    | Some (String c s) => String c s
                    | _ => match first with
                           | String c s => String c s
                           | EmptyString => "user_" +:+ pretty uid
                           end
                    end).
  { by destruct name as [[|c s]|], first as [|c' s']. }
  rewrite Hname in Hrun. destruct Hrun as [Hst Hq].
  eexists. split; [reflexivity|].
  split_and!; try done; cbn.
  - destruct start_arg as [r|]; [|done].
    destruct (Z.eqb_spec r uid); [done | congruence].
  - intros r -> Hne. by destruct (Z.eqb_spec r uid).
  - intros ->. by rewrite Z.eqb_refl.
  - by intros ->.
  - destruct name as [[|c s]|]; try done; by destruct first.
  - intros s -> Hs. by destruct s.
  - intros [-> | ->] Hfirst; by destruct first.
  - by intros [-> | ->] ->.
Qed.

Lemma start_stores_a_clean_row_witness :
  ∃ row,
    row = User 5 ("user_" +:+ pretty 5) None 1700000000 0%float None
    ∧ store (cmd_start 5 None "" (Some 5) 1700000000
               (World Sample.two_users [] 0)).2
      = set_users (insert 5 row) Sample.two_users.
Proof.
  destruct (start_stores_a_clean_row 5 None "" (Some 5) 1700000000
              (World Sample.two_users [] 0)
              (cmd_start 5 None "" (Some 5) 1700000000
                 (World Sample.two_users [] 0)).2
              (MainMenu 0%float) eq_refl)
    as (row & Hrow & _ & _ & _ & _ & _ & _ & _ & _ & _ & _ & _ & _ & _ & Hq).
  exists row. split; [exact Hrow | exact (Hq eq_refl)].
Defined.

(** ** The subscription button *)

Lemma update_user_sponsor_status_run (uid sid : Z) (flag : bool) (now : Z)
    (w w' : world) (r : bool) :
  update_user_sponsor_status uid sid flag now w = (r, w') →
  (errors w ≤ errors w')%nat
  ∧ users (store w') = users (store w)
  ∧ sponsors (store w') = sponsors (store w)
  ∧ transactions (store w') = transactions (store w)
  ∧ withdrawals (store w') = withdrawals (store w)
  ∧ (user_sponsors (store w') = user_sponsors (store w)
     ∨ user_sponsors (store w')
       = <[(uid, sid) := SponsorStatus flag now]> (user_sponsors (store w)))
  ∧ (errors w' = errors w →
     user_sponsors (store w')
     = <[(uid, sid) := SponsorStatus flag now]> (user_sponsors (store w))).
Proof.
  unfold update_user_sponsor_status. by_schedule w; intros [= <- <-]; cbn;
    split_and!; auto; lia.
Qed.

(** The loop over the sponsors: only rows of the user are written, a row
    already flagged at this time stays so, and with no request failing
    every listed sponsor ends up flagged. *)
Lemma mark_subscribed_run (uid : Z) (l : list Z) (now : Z) (w w' : world) :
  mark_subscribed uid l now w = (tt, w') →
  (errors w ≤ errors w')%nat
  ∧ users (store w') = users (store w)
  ∧ sponsors (store w') = sponsors (store w)
  ∧ transactions (store w') = transactions (store w)
  ∧ withdrawals (store w') = withdrawals (store w)
  ∧ (∀ other sid, other ≠ uid →
       user_sponsors (store w') !! (other, sid)
       = user_sponsors (store w) !! (other, sid))
  ∧ (∀ sid, user_sponsors (store w) !! (uid, sid) = Some (SponsorStatus true now) →
       user_sponsors (store w') !! (uid, sid) = Some (SponsorStatus true now))
  ∧ (errors w' = errors w →
     ∀ sid, sid ∈ l →
       user_sponsors (store w') !! (uid, sid) = Some (SponsorStatus true now)).
Proof.
  revert w. induction l as [|s l IH]; intros w; cbn [mark_subscribed].
  - intros [= <-]. split_and!; auto. intros _ sid Hin. inversion Hin.
  - unfold bind. step Hone r w1.
    apply update_user_sponsor_status_run in Hone
      as (He1 & Hu1 & Hsp1 & Ht1 & Hw1 & Hus1 & Hq1).
    intros (He & Hu & Hsp & Ht & Hw & Hother & Hstay & Hq)%IH.
    split_and!; try congruence; try lia.
    + intros other sid Hne. rewrite Hother by done.
      destruct Hus1 as [-> | ->]; [done|]. rewrite lookup_insert_ne; [done|congruence].
    + intros sid Hsid. apply Hstay. destruct Hus1 as [-> | ->]; [done|].
      destruct (decide (sid = s)) as [->|Hne].
      * by rewrite lookup_insert_eq.
      * rewrite lookup_insert_ne; [done|congruence].
    + intros Hquiet sid Hin. apply elem_of_cons in Hin as [->|Hin].
      * apply Hstay. rewrite Hq1 by lia. by rewrite lookup_insert_eq.
      * apply Hq; [lia | done].
Qed.

(** X12: the button under the sponsors message checks nothing: when none of
    its requests fails, every configured sponsor is recorded as subscribed
    for the user, so the user's subscriptions are complete afterwards.
    Whichever requests fail, users, ledger, withdrawals, the sponsor list
    and the rows of other users stay as they were. *)
Theorem button_marks_every_sponsor (uid bot_id now : Z) (w w' : world)
    (view : menu_view) :
  handle_check_subscriptions uid bot_id now w = (view, w') →
  users (store w') = users (store w)
  ∧ sponsors (store w') = sponsors (store w)
  ∧ transactions (store w') = transactions (store w)
  ∧ withdrawals (store w') = withdrawals (store w)
  ∧ (∀ other sid, other ≠ uid →
       user_sponsors (store w') !! (other, sid)
       = user_sponsors (store w) !! (other, sid))
  ∧ (errors w' = errors w →
     (∀ sid, sid ∈ sponsors (store w) →
        is_subscribed <$> user_sponsors (store w') !! (uid, sid) = Some true)
     ∧ subscription_complete (store w') uid).
Proof.
  unfold handle_check_subscriptions, bind. step Hsp l w1.
  pose proof (get_sponsors_run _ _ _ Hsp) as (Hs1 & He1).
  step Hmark r w2. destruct r.
  apply mark_subscribed_run in Hmark
    as (He2 & Hu & Hspo & Ht & Hw & Hother & _ & Hq).
  intros (Hs3 & He3)%show_main_menu_run. rewrite Hs3, <- Hs1.
  split_and!; try done.
  intros Hquiet.
  assert (l = sponsors (store w)) as Hl.
  { revert Hsp. by_schedule w; intros [= <- <-]; cbn in *; [done | lia | done]. }
  assert (Hall : ∀ sid, sid ∈ sponsors (store w1) →
            is_subscribed <$> user_sponsors (store w2) !! (uid, sid) = Some true).
  { intros sid Hin. rewrite Hq; [done | lia |]. by rewrite Hl, <- Hs1. }
  split; [done|]. right. intros sid Hin. rewrite Hspo in Hin.
  by rewrite (Hall sid Hin).
Qed.

Lemma button_marks_every_sponsor_witness :
  subscription_complete
    (store (handle_check_subscriptions 2 99 1700000000
              (World Sample.one_sponsor [] 0)).2) 2.
Proof.
  exact (proj2 (proj2 (proj2 (proj2 (proj2 (proj2
           (button_marks_every_sponsor 2 99 1700000000
              (World Sample.one_sponsor [] 0)
              (handle_check_subscriptions 2 99 1700000000
                 (World Sample.one_sponsor [] 0)).2
              (MainMenu 0%float) eq_refl))))) eq_refl)).
Defined.

(** ** What no request undoes *)

Lemma grown_refl (d : database) : grown d d.
Proof.
  split_and!; auto.
  - exists []. by rewrite app_nil_r.
  - exists []. by rewrite app_nil_r.
Qed.

Lemma grown_trans (d1 d2 d3 : database) : grown d1 d2 → grown d2 d3 → grown d1 d3.
Proof.
  intros (Hs & Hu & Hf & (t1 & Ht1 & Hty1) & (v1 & Hv1 & Hp1))
         (Hs' & Hu' & Hf' & (t2 & Ht2 & Hty2) & (v2 & Hv2 & Hp2)).
  split_and!; [congruence | auto | auto | |].
  - exists (t1 ++ t2). rewrite Ht2, Ht1, <- app_assoc. split; [done|].
    by apply Forall_app.
  - exists (v1 ++ v2). rewrite Hv2, Hv1, <- app_assoc. split; [done|].
    by apply Forall_app.
Qed.

Lemma users_kept_is_Some (m m' : gmap Z user) (k : Z) :
  users_kept m m' → is_Some (m !! k) → is_Some (m' !! k).
Proof.
  intros Hk [u Hu]. specialize (Hk k). rewrite Hu in Hk.
  by destruct (m' !! k).
Qed.

Lemma handle_click_grown (uid : Z) (name : option string) (now : Z)
    (w w' : world) (reply : click_reply) :
  handle_click uid name now w = (reply, w') → grown (store w) (store w').
Proof.
  intros (m' & l1 & l2 & Hk & -> & Hl1 & Hl2)%handle_click_keeps.
  split_and!; cbn; [done | eauto using users_kept_is_Some | done | |].
  - exists (l1 ++ l2). split; [done|]. apply Forall_app. split.
    + destruct Hl1 as [-> | ->]; [done|]. repeat constructor; set_solver.
    + destruct Hl2 as [-> | (r & _ & ->)]; [done|]. repeat constructor; set_solver.
  - exists []. by rewrite app_nil_r.
Qed.

Lemma handle_withdraw_grown (rpc : database → Z → list Z) (uid : Z)
    (amount_arg : option float) (now : Z) (w w' : world) (reply : withdraw_reply) :
  handle_withdraw rpc uid amount_arg now w = (reply, w') → grown (store w) (store w').
Proof.
  intros [[-> _] | (amount & m' & new & _ & _ & _ & Hk & Hnew & ->)]%handle_withdraw_keeps;
    [apply grown_refl|].
  split_and!; cbn; [done | eauto using users_kept_is_Some | done | |].
  - exists new. split; [done|].
    destruct Hnew as [-> | ->]; [done|]. repeat constructor; set_solver.
  - eexists. split; [done|]. by repeat constructor.
Qed.

Lemma cmd_start_grown (uid : Z) (name : option string) (first : string)
    (start_arg : option Z) (now : Z) (w w' : world) (view : menu_view) :
  cmd_start uid name first start_arg now w = (view, w') → grown (store w) (store w').
Proof.
  intros [[-> | ->] _]%cmd_start_run; [apply grown_refl|].
  split_and!; cbn; [done | | done | |].
  - intros k Hk. destruct (decide (k = uid)) as [->|Hne].
    + rewrite lookup_insert_eq. eauto.
    + by rewrite lookup_insert_ne.
  - exists []. by rewrite app_nil_r.
  - exists []. by rewrite app_nil_r.
Qed.

(** The loop of the button never takes a flag away. *)
Lemma mark_subscribed_flags (uid : Z) (l : list Z) (now : Z) (w w' : world) :
  mark_subscribed uid l now w = (tt, w') →
  ∀ k, is_subscribed <$> user_sponsors (store w) !! k = Some true →
       is_subscribed <$> user_sponsors (store w') !! k = Some true.
Proof.
  revert w. induction l as [|s l IH]; intros w; cbn [mark_subscribed].
  - by intros [= <-].
  - unfold bind. step Hone r w1.
    apply update_user_sponsor_status_run in Hone as (_ & _ & _ & _ & _ & Hus & _).
    intros Hrest k Hk. apply (IH _ Hrest).
    destruct Hus as [-> | ->]; [done|].
    destruct (decide (k = (uid, s))) as [->|Hne].
    + by rewrite lookup_insert_eq.
    + by rewrite lookup_insert_ne.
Qed.

Lemma handle_check_subscriptions_grown (uid bot_id now : Z) (w w' : world)
    (view : menu_view) :
  handle_check_subscriptions uid bot_id now w = (view, w') →
  grown (store w) (store w').
Proof.
  unfold handle_check_subscriptions, bind. step Hsp l w1.
  apply get_sponsors_run in Hsp as (Hs1 & _).
  step Hmark r w2. destruct r.
  pose proof (mark_subscribed_flags _ _ _ _ _ Hmark) as Hflags.
  apply mark_subscribed_run in Hmark as (_ & Hu & Hspo & Ht & Hw & _).
  intros (Hs3 & _)%show_main_menu_run. rewrite Hs3, <- Hs1.
  split_and!; [done | by rewrite Hu | done | |].
  - exists []. by rewrite app_nil_r.
  - exists []. by rewrite app_nil_r.
Qed.

Lemma any_step_grown (rpc : database → Z → list Z) (d d' : database) :
  any_step rpc d d' → grown d d'.
Proof.
  intros [(op & fs & fs' & n & n' & Hrun)
         | (uid & bot_id & now & view & fs & fs' & n & n' & Hrun)].
  - destruct op as [uid name now | uid amount_arg now | uid name first start_arg now];
      revert Hrun; cbn [perform]; unfold bind, ret.
    + step Hop reply w1. intros [= ->].
      by apply handle_click_grown in Hop.
    + step Hop reply w1. intros [= ->].
      by apply handle_withdraw_grown in Hop.
    + step Hop reply w1. intros [= ->].
      by apply cmd_start_grown in Hop.
  - by apply handle_check_subscriptions_grown in Hrun.
Qed.

Lemma any_steps_grown (rpc : database → Z → list Z) (d d' : database) :
  rtc (any_step rpc) d d' → grown d d'.
Proof.
  induction 1 as [d | d1 d2 d3 Hstep _ IH]; [apply grown_refl|].
  eapply grown_trans; [by apply (any_step_grown rpc) | done].
Qed.

Lemma grown_complete (d d' : database) (uid : Z) :
  grown d d' → subscription_complete d uid → subscription_complete d' uid.
Proof.
  intros (Hs & _ & Hf & _) [Hnone | Hall]; [left; congruence | right].
  intros sid Hin. rewrite Hs in Hin. auto.
Qed.

(** Complete subscriptions pass the gate, also when the status query
    raises. *)
Lemma complete_passes_gate (uid : Z) (w w' : world) (b : bool) :
  subscription_complete (store w) uid →
  check_subscriptions uid w = (b, w') → b = true.
Proof.
  intros Hc Hrun.
  destruct (decide (errors w' = errors w)) as [Hq|Hq].
  - by apply (check_subscriptions_answered _ _ _ _ Hrun Hq).
  - revert Hrun Hq. by_schedule w;
      try destruct (rpc_get_user_sponsors_status _ _);
      intros [= <- <-]; cbn; done.
Qed.

(** X13: no sequence of clicks, withdrawal requests, [/start]s and presses
    of the subscription button, with whatever requests failing, takes
    anything back: the sponsor list stays, no user id leaves the users
    table, no recorded subscription is withdrawn, the ledger and the
    withdrawals only grow at their end, every new ledger entry has one of
    the types click, referral_income and withdrawal, and every new
    withdrawal is pending. *)
Theorem history_only_grows (rpc : database → Z → list Z) (d d' : database) :
  rtc (any_step rpc) d d' → grown d d'.
Proof. apply any_steps_grown. Qed.

Lemma history_only_grows_witness :
  grown Sample.funded
    (store (handle_withdraw Sample.three_active 4 (Some 25%float) 1700000000
              (World Sample.funded [] 0)).2).
Proof.
  apply (history_only_grows Sample.three_active). apply rtc_once. left.
  exists (Withdraw 4 (Some 25%float) 1700000000), [], [], 0%nat, 0%nat.
  vm_compute. reflexivity.
Defined.

(** X14: once the button was pressed with none of its requests failing,
    the user stays past the subscription gate for good: after any further
    clicks, withdrawal requests, [/start]s and button presses of anybody,
    and whichever requests fail, [check_subscriptions] answers [True] and
    no gated handler gives its not-subscribed reply. *)
Theorem button_opens_the_gate_for_good (rpc : database → Z → list Z)
    (uid bot_id now : Z) (w w' : world) (view : menu_view) (d : database) :
  handle_check_subscriptions uid bot_id now w = (view, w') →
  errors w' = errors w →
  rtc (any_step rpc) (store w') d →
  ∀ (name : option string) (t sender : Z) (fs : list bool) (n : nat),
    (check_subscriptions uid (World d fs n)).1 = true
    ∧ (handle_click uid name t (World d fs n)).1 ≠ ClickNotSubscribed
    ∧ (handle_withdraw_menu uid (World d fs n)).1
      = WithdrawMenu Config.WITHDRAWAL_AMOUNTS
    ∧ (handle_profile rpc uid t (World d fs n)).1 ≠ ProfileNotSubscribed
    ∧ (handle_earn uid sender (World d fs n)).1 = EarnMenu
    ∧ (handle_referral rpc uid (World d fs n)).1 ≠ ReferralNotSubscribed.
Proof.
  intros Hrun Hquiet Hsteps name t sender fs n.
  assert (Hc : subscription_complete d uid).
  { apply (grown_complete (store w')); [by apply (any_steps_grown rpc)|].
    revert Hrun. unfold handle_check_subscriptions, bind. step Hsp l w1.
    pose proof (get_sponsors_run _ _ _ Hsp) as (Hs1 & He1).
    step Hmark r w2. destruct r.
    apply mark_subscribed_run in Hmark
      as (He2 & _ & Hspo & _ & _ & _ & _ & Hq).
    intros (Hs3 & He3)%show_main_menu_run. rewrite Hs3. right.
    intros sid Hin. rewrite Hq; [done | lia |].
    rewrite Hspo, Hs1 in Hin.
    revert Hsp. by_schedule w; intros [= <- <-]; cbn in *; [done | lia | done]. }
  assert (Hgate : ∃ w1, check_subscriptions uid (World d fs n) = (true, w1)).
  { destruct (check_subscriptions uid (World d fs n)) as [b w1] eqn:Hg.
    exists w1. by rewrite (complete_passes_gate uid (World d fs n) w1 b Hc Hg). }
  destruct Hgate as [w1 Hgate].
  split_and!.
  - by rewrite Hgate.
  - unfold handle_click, bind. rewrite Hgate. cbn [negb].
    step Hload o w2. destruct o as [u|]; [|done]. cbv zeta.
    destruct (_ && _); [done|]. apply credit_click_reply.
  - unfold handle_withdraw_menu, bind. by rewrite Hgate.
  - unfold handle_profile, bind. rewrite Hgate. cbn [negb].
    step Hload o w2. destruct o as [u|]; [|done]. by step Hrefs refs w3.
  - unfold handle_earn, bind. by rewrite Hgate.
  - unfold handle_referral, bind. rewrite Hgate. cbn [negb].
    by step Hrefs refs w2.
Qed.

Lemma button_opens_the_gate_for_good_witness :
  (check_subscriptions 2
     (World (store (handle_check_subscriptions 2 99 1700000000
                      (World Sample.one_sponsor [] 0)).2) [true] 0)).1 = true.
Proof.
  exact (proj1 (button_opens_the_gate_for_good Sample.three_active 2 99 1700000000
                  (World Sample.one_sponsor [] 0)
                  (handle_check_subscriptions 2 99 1700000000
                     (World Sample.one_sponsor [] 0)).2
                  (MainMenu 0%float)
                  (store (handle_check_subscriptions 2 99 1700000000
                            (World Sample.one_sponsor [] 0)).2)
                  eq_refl eq_refl (rtc_refl _ _) None 0 0 [true] 0%nat)).
Defined.

Lemma users_kept_sound (m m' : gmap Z user) :
  users_kept m m' → sound_rows m → sound_rows m'.
Proof.
  intros Hk Hm k u' Hu'. specialize (Hk k). rewrite Hu' in Hk.
  destruct (m !! k) as [u|] eqn:Hu; [|done].
  destruct (Hm k u Hu) as (Hid & Href & Hfin).
  destruct Hk as (Hid' & _ & Href' & _ & Hfin').
  split_and!; [congruence | congruence | auto].
Qed.

Lemma any_step_sound (rpc : database → Z → list Z) (d d' : database) :
  any_step rpc d d' → sound_rows (users d) → sound_rows (users d').
Proof.
  intros [(op & fs & fs' & n & n' & Hrun)
         | (uid & bot_id & now & view & fs & fs' & n & n' & Hrun)].
  - destruct op as [uid name now | uid amount_arg now | uid name first start_arg now];
      revert Hrun; cbn [perform]; unfold bind, ret.
    + step Hop reply w1. intros [= ->].
      apply handle_click_keeps in Hop as (m' & l1 & l2 & Hk & Hst & _).
      cbn in Hst, Hk. rewrite Hst. by apply users_kept_sound.
    + step Hop reply w1. intros [= ->].
      apply handle_withdraw_keeps in Hop
        as [[Hst _] | (amount & m' & new & _ & _ & _ & Hk & _ & Hst)];
        cbn in Hst; rewrite Hst; [done|]. by apply users_kept_sound.
    + step Hop reply w1. intros [= ->].
      apply cmd_start_run in Hop as [[Hst | Hst] _]; cbn in Hst; rewrite Hst; [done|].
      intros Hm k u. cbn. destruct (decide (k = uid)) as [->|Hne].
      * rewrite lookup_insert_eq. intros [= <-]. cbn. split_and!; [done | | done].
        destruct start_arg as [r|]; [|done].
        destruct (Z.eqb_spec r uid); [done | congruence].
      * rewrite lookup_insert_ne by done. apply Hm.
  - revert Hrun. unfold handle_check_subscriptions, bind. step Hsp l w1.
    apply get_sponsors_run in Hsp as (Hs1 & _).
    step Hmark r w2. destruct r.
    apply mark_subscribed_run in Hmark as (_ & Hu & _).
    intros (Hs3 & _)%show_main_menu_run. cbn in *. by rewrite Hs3, Hu, Hs1.
Qed.

(** X15: rows stay as [/start] makes them.  When every row of the users
    table is filed under its own id, names somebody else (or nobody) as
    referrer and holds a finite balance, this is still so after any
    sequence of clicks, withdrawal requests, [/start]s and button presses,
    whichever requests fail. *)
Theorem rows_stay_sound (rpc : database → Z → list Z) (d d' : database) :
  rtc (any_step rpc) d d' → sound_rows (users d) → sound_rows (users d').
Proof.
  induction 1 as [d | d1 d2 d3 Hstep _ IH]; [done|].
  intros Hm. by apply IH, (any_step_sound rpc d1).
Qed.

Lemma rows_stay_sound_witness :
  sound_rows
    (users (store (cmd_start 2 (Some "bob") "Bob" (Some 2) 1700000000
                     (World Sample.two_users [] 0)).2)).
Proof.
  apply (rows_stay_sound Sample.three_active Sample.two_users).
  - apply rtc_once. left.
    exists (Start 2 (Some "bob") "Bob" (Some 2) 1700000000), [], [], 0%nat, 0%nat.
    vm_compute. reflexivity.
  - intros k u. unfold Sample.two_users. cbn [users].
    destruct (decide (k = 1)) as [->|H1].
    { rewrite lookup_insert_eq. intros [= <-]. by repeat split. }
    rewrite lookup_insert_ne by done.
    destruct (decide (k = 2)) as [->|H2].
    { rewrite lookup_insert_eq. intros [= <-]. by repeat split. }
    rewrite lookup_insert_ne by done. by rewrite lookup_empty.
Defined.

(** X16: [/start] lifts the cooldown.  When a [/start] and the click after
    it run with no request failing and the user's subscriptions are
    complete, the click is rewarded and shows the balance [CLICK_REWARD]:
    whatever the last click and the balance of the user were before the
    [/start].  The ledger gains the click entry and, when the link named a
    nonzero id other than the user's, a referral entry for that id,
    whether or not the users table has a row for it. *)
Theorem start_lifts_the_cooldown (uid : Z) (name name' : option string)
    (first : string) (start_arg : option Z) (t0 t1 : Z) (w w1 w2 : world)
    (view : menu_view) (reply : click_reply) :
  cmd_start uid name first start_arg t0 w = (view, w1) →
  errors w1 = errors w →
  handle_click uid name' t1 w1 = (reply, w2) →
  errors w2 = errors w1 →
  subscription_complete (store w) uid →
  let referrer :=
    match start_arg with
    | Some r => if r =? uid then None else Some r
    | None => None
    end in
  reply = ClickRewarded Config.CLICK_REWARD Config.CLICK_REWARD
  ∧ transactions (store w2)
    = transactions (store w)
      ++ click_entry uid t1
         :: (if truthy_int referrer
             then [referral_entry (default 0 referrer) uid name' t1]
             else []).
Proof.
  intros Hstart Hq1 Hclick Hq2 Hc referrer.
  apply cmd_start_run in Hstart as [_ Hs1]. specialize (Hs1 Hq1).
  cbv zeta in Hs1. fold referrer in Hs1.
  set (row := User uid _ referrer t0 0%float None) in Hs1.
  assert (Hrow : users (store w1) !! uid = Some row).
  { rewrite Hs1. cbn. apply lookup_insert_eq. }
  assert (Hc1 : subscription_complete (store w1) uid) by (by rewrite Hs1).
  pose proof (handle_click_run _ _ _ _ _ _ Hclick) as Hshown.
  revert Hclick. unfold handle_click, bind. step Hgate ok wa.
  pose proof (check_subscriptions_run _ _ _ _ Hgate) as [Hsa Hea].
  destruct ok; cbn [negb].
  2: { intros [= <- <-].
       by apply (check_subscriptions_answered _ _ _ _ Hgate) in Hc1; [|lia]. }
  step Hload o wb.
  pose proof (get_user_run _ _ _ _ Hload) as (Hsb & Heb & Hu & Hqb).
  destruct o as [u|].
  2: { intros [= <- <-]. rewrite Hqb in Hload by lia.
       rewrite Hsa, Hrow in Hqb. by specialize (Hqb ltac:(lia)). }
  specialize (Hu u eq_refl). rewrite Hsa, Hrow in Hu. injection Hu as <-.
  cbn [last_click row truthy_int andb]. intros Hrun.
  pose proof (credit_click_errors _ _ _ _ _ _ _ Hrun) as He.
  assert (Hrowb : users (store wb) !! uid = Some row) by (by rewrite Hsb, Hsa).
  pose proof (credit_click_quiet uid name' row row t1 wb w2 reply Hrun
                ltac:(lia) Hrowb) as Hstore.
  destruct (credit_click_quiet_reply uid name' row t1 wb w2 reply Hrun
              ltac:(lia) ltac:(eauto)) as [shown ->].
  destruct Hshown as (_ & v & Hv & <-).
  rewrite Hsb, Hsa, Hs1 in Hstore. rewrite Hstore in Hv |- *. clear Hstore.
  cbn [referrer_id row] in *. unfold commissioned in *.
  destruct (truthy_int referrer) eqn:Htruthy.
  - cbv zeta in *.
    assert (Hne : default 0 referrer ≠ uid).
    { subst referrer. destruct start_arg as [r|]; [|done].
      destruct (Z.eqb_spec r uid); [done | by cbn]. }
    destruct (users _ !! default 0 referrer) as [ru|];
      cbn in Hv |- *.
    + rewrite lookup_alter_ne in Hv by done.
      rewrite !lookup_alter_eq, lookup_insert_eq in Hv. injection Hv as <-.
      split; [done|]. by rewrite <- app_assoc.
    + rewrite !lookup_alter_eq, lookup_insert_eq in Hv. injection Hv as <-.
      split; [done|]. by rewrite <- app_assoc.
  - cbn in Hv |- *.
    rewrite !lookup_alter_eq, lookup_insert_eq in Hv. by injection Hv as <-.
Qed.

Lemma start_lifts_the_cooldown_witness :
  (handle_click 2 (Some "bob") 1700000060
     (cmd_start 2 (Some "bob") "Bob" (Some 1) 1700000050
        (World Sample.commission_paid [] 0)).2).1
  = ClickRewarded Config.CLICK_REWARD Config.CLICK_REWARD.
Proof.
  exact (proj1 (start_lifts_the_cooldown 2 (Some "bob") (Some "bob") "Bob"
                  (Some 1) 1700000050 1700000060
                  (World Sample.commission_paid [] 0)
                  (cmd_start 2 (Some "bob") "Bob" (Some 1) 1700000050
                     (World Sample.commission_paid [] 0)).2
                  (handle_click 2 (Some "bob") 1700000060
                     (cmd_start 2 (Some "bob") "Bob" (Some 1) 1700000050
                        (World Sample.commission_paid [] 0)).2).2
                  (MainMenu 0%float)
                  (handle_click 2 (Some "bob") 1700000060
                     (cmd_start 2 (Some "bob") "Bob" (Some 1) 1700000050
                        (World Sample.commission_paid [] 0)).2).1
                  eq_refl eq_refl eq_refl eq_refl (or_introl eq_refl))).
Defined.

(** ** Two clicks in one window, with other requests in between *)

Lemma stamp_alter_balance (b : float) (v k : Z) (m : gmap Z user) :
  last_click <$> alter (set_balance b) v m !! k = last_click <$> m !! k.
Proof.
  destruct (decide (k = v)) as [->|Hne]; [|by rewrite lookup_alter_ne].
  rewrite lookup_alter_eq. by destruct (m !! v).
Qed.

Lemma update_balance_stamp (v : Z) (amount : float) (w w' : world) (r : bool) (k : Z) :
  update_balance v amount w = (r, w') →
  last_click <$> users (store w') !! k = last_click <$> users (store w) !! k.
Proof.
  intros (_ & [-> | (u & _ & _ & ->)] & _)%update_balance_run; [done|].
  cbn. apply stamp_alter_balance.
Qed.

Lemma update_last_click_stamp (v t : Z) (w w' : world) (r : bool) (k : Z) :
  update_last_click v t w = (r, w') → k ≠ v →
  last_click <$> users (store w') !! k = last_click <$> users (store w) !! k.
Proof.
  intros (_ & [-> | ->] & _)%update_last_click_run Hne; [done|].
  cbn. by rewrite lookup_alter_ne.
Qed.

Lemma add_transaction_users (v : Z) (amount : float) (type description : string)
    (now : Z) (w w' : world) (r : bool) :
  add_transaction v amount type description now w = (r, w') →
  users (store w') = users (store w).
Proof. by intros (_ & [-> | ->] & _)%add_transaction_run. Qed.

(** The reward of a click of [v] leaves the stamps of everybody else. *)
Lemma credit_click_stamp (v : Z) (name : option string) (u : user) (now : Z)
    (w w' : world) (reply : click_reply) (k : Z) :
  credit_click v name u now w = (reply, w') → k ≠ v →
  last_click <$> users (store w') !! k = last_click <$> users (store w) !! k.
Proof.
  intros Hrun Hne. revert Hrun. unfold credit_click, bind.
  step Hpay r1 w1. step Hstamp r2 w2. step Hlog r3 w3.
  apply (update_balance_stamp _ _ _ _ _ k) in Hpay.
  apply (update_last_click_stamp _ _ _ _ _ k) in Hstamp; [|done].
  apply add_transaction_users in Hlog.
  assert (H3 : last_click <$> users (store w3) !! k
               = last_click <$> users (store w) !! k) by congruence.
  assert (Hlast : ∀ w4,
            last_click <$> users (store w4) !! k
            = last_click <$> users (store w) !! k →
            (let (o, w5) := get_user v w4 in
             match o with
             | Some u1 => ret (ClickRewarded Config.CLICK_REWARD (balance u1))
             | None => ret ClickRaised
             end w5) = (reply, w') →
            last_click <$> users (store w') !! k
            = last_click <$> users (store w) !! k).
  { intros w4 H4. step Hget o w5. apply get_user_run in Hget as (Hs5 & _).
    intros Hend. assert (w' = w5) as -> by (destruct o; by injection Hend).
    by rewrite Hs5. }
  destruct (truthy_int (referrer_id u)).
  - step Hblock rb wb. revert Hblock. step Hpay2 r4 w4. step Hlog2 r5 w5.
    unfold ret. intros [= _ <-].
    apply (update_balance_stamp _ _ _ _ _ k) in Hpay2.
    apply add_transaction_users in Hlog2.
    apply Hlast. congruence.
  - step Hblock rb wb. injection Hblock as _ <-. by apply Hlast.
Qed.

Lemma handle_click_stamp (v : Z) (name : option string) (now : Z)
    (w w' : world) (reply : click_reply) (k : Z) :
  handle_click v name now w = (reply, w') → k ≠ v →
  last_click <$> users (store w') !! k = last_click <$> users (store w) !! k.
Proof.
  intros [[-> _] | (u & w2 & _ & Hs2 & _ & _ & Hrun)]%handle_click_cases Hne; [done|].
  rewrite <- Hs2. by apply (credit_click_stamp v name u now w2 w' reply).
Qed.

Lemma handle_withdraw_stamp (rpc : database → Z → list Z) (v : Z)
    (amount_arg : option float) (now : Z) (w w' : world) (reply : withdraw_reply)
    (k : Z) :
  handle_withdraw rpc v amount_arg now w = (reply, w') →
  last_click <$> users (store w') !! k = last_click <$> users (store w) !! k.
Proof.
  intros [-> | (u & amount & _ & _ & _ & _ & ->)]%handle_withdraw_users; [done|].
  apply stamp_alter_balance.
Qed.

Lemma handle_check_subscriptions_users (v bot_id now : Z) (w w' : world)
    (view : menu_view) :
  handle_check_subscriptions v bot_id now w = (view, w') →
  users (store w') = users (store w).
Proof.
  unfold handle_check_subscriptions, bind. step Hsp l w1.
  apply get_sponsors_run in Hsp as (Hs1 & _).
  step Hmark r w2. destruct r.
  apply mark_subscribed_run in Hmark as (_ & Hu & _).
  intros (Hs3 & _)%show_main_menu_run. by rewrite Hs3, Hu, Hs1.
Qed.

Lemma meanwhile_any_step (rpc : database → Z → list Z) (uid t1 : Z)
    (d d' : database) :
  meanwhile rpc uid t1 d d' → any_step rpc d d'.
Proof.
  intros [(op & fs & fs' & n & n' & Hrun & _) | Hbutton]; [left | by right].
  by exists op, fs, fs', n, n'.
Qed.

(** While the cooldown runs, the stamp of the rewarded click stays. *)
Lemma meanwhile_stamp (rpc : database → Z → list Z) (uid t1 : Z)
    (d d' : database) :
  t1 ≠ 0 →
  meanwhile rpc uid t1 d d' →
  last_click <$> users d !! uid = Some (Some t1) →
  last_click <$> users d' !! uid = Some (Some t1).
Proof.
  intros Hnz [(op & fs & fs' & n & n' & Hrun & Hop)
             | (v & bot_id & now & view & fs & fs' & n & n' & Hrun)] Hstamp.
  - destruct op as [v name t | v amount_arg t | v name first start_arg t];
      revert Hrun; cbn [perform]; unfold bind, ret.
    + step Hclick reply w1. intros [= ->].
      destruct (decide (v = uid)) as [->|Hne].
      * destruct Hop as [Hop | Hyoung]; [done|].
        apply handle_click_cases in Hclick
          as [[Hsame _] | (u & w2 & Hu & _ & _ & Hold & _)].
        { cbn in Hsame. by rewrite Hsame. }
        cbn in Hu. rewrite Hu in Hstamp. injection Hstamp as Hstamp.
        destruct Hold as [Hold | [Hold | (t0 & Hold & Hlate)]];
          rewrite Hold in Hstamp; [done | congruence |].
        injection Hstamp as ->. lia.
      * apply (handle_click_stamp _ _ _ _ _ reply uid) in Hclick; [|done].
        cbn in Hclick. by rewrite Hclick.
    + step Hwd reply w1. intros [= ->].
      apply (handle_withdraw_stamp _ _ _ _ _ _ reply uid) in Hwd.
      cbn in Hwd. by rewrite Hwd.
    + step Hstart view w1. intros [= ->].
      apply cmd_start_run in Hstart as [[Hst | Hst] _]; cbn in Hst; rewrite Hst;
        [done|].
      cbn. by rewrite lookup_insert_ne.
  - apply handle_check_subscriptions_users in Hrun. cbn in Hrun. by rewrite Hrun.
Qed.

Lemma meanwhile_steps (rpc : database → Z → list Z) (uid t1 : Z)
    (d d' : database) :
  t1 ≠ 0 →
  rtc (meanwhile rpc uid t1) d d' →
  last_click <$> users d !! uid = Some (Some t1) →
  subscription_complete d uid →
  last_click <$> users d' !! uid = Some (Some t1)
  ∧ subscription_complete d' uid.
Proof.
  intros Hnz. induction 1 as [d | d1 d2 d3 Hstep _ IH]; [done|].
  intros Hstamp Hc. apply IH.
  - by apply (meanwhile_stamp rpc uid t1 d1).
  - apply (grown_complete d1); [|done].
    by apply (any_step_grown rpc), (meanwhile_any_step rpc uid t1).
Qed.

(** A rewarded click with no request failing leaves its stamp and complete
    subscriptions. *)
Lemma rewarded_click_stamp (uid : Z) (name : option string) (t1 : Z)
    (w w1 : world) (reward shown : float) :
  handle_click uid name t1 w = (ClickRewarded reward shown, w1) →
  errors w1 = errors w →
  last_click <$> users (store w1) !! uid = Some (Some t1)
  ∧ subscription_complete (store w1) uid.
Proof.
  intros Hfirst Hq1.
  pose proof (handle_click_rewarded _ _ _ _ _ _ _ Hfirst)
    as (wa & wb & u & Hgate & Hload & _).
  apply check_subscriptions_run in Hgate as [Hsa _].
  apply get_user_run in Hload as (_ & _ & Hu & _).
  specialize (Hu u eq_refl). rewrite Hsa in Hu.
  destruct (handle_click_quiet uid name t1 w w1 u reward shown Hfirst Hq1 Hu)
    as [Hsub Hw1].
  split.
  - rewrite Hw1.
    destruct (users (commissioned _ _ _ _ _) !! uid) as [v|] eqn:Hv.
    + apply (last_click_after_reward uid name (referrer_id u) u v t1 (store w) Hu)
        in Hv.
      cbn. by rewrite Hv.
    + exfalso. revert Hv. unfold commissioned.
      assert (Hrow' : is_Some (users (rewarded uid u t1 (store w)) !! uid)).
      { cbn [users rewarded logged clicked credited set_users].
        rewrite !lookup_alter_eq, Hu. eauto. }
      destruct Hrow' as [v Hrow'].
      destruct (truthy_int (referrer_id u)); [|by rewrite Hrow'].
      cbv zeta. destruct (users _ !! default 0 (referrer_id u)) as [ru|];
        cbn [users logged credited set_users]; [|by rewrite Hrow'].
      destruct (decide (default 0 (referrer_id u) = uid)) as [->|Hne].
      * by rewrite lookup_alter_eq, Hrow'.
      * by rewrite lookup_alter_ne, Hrow' by done.
  - destruct (commissioned_sponsor_tables uid name (referrer_id u) u t1 (store w))
      as [Hsp Husp].
    unfold subscription_complete in *. by rewrite Hw1, Hsp, Husp.
Qed.

(** A click on a row stamped less than the cooldown ago, with no request
    failing. *)
Lemma click_in_window (uid : Z) (name : option string) (t1 t2 : Z)
    (w2 w3 : world) (reply : click_reply) :
  last_click <$> users (store w2) !! uid = Some (Some t1) →
  subscription_complete (store w2) uid →
  t1 ≠ 0 → t2 - t1 < Config.CLICK_COOLDOWN →
  handle_click uid name t2 w2 = (reply, w3) →
  errors w3 = errors w2 →
  reply = ClickCooldown (Config.CLICK_COOLDOWN - (t2 - t1))
  ∧ store w3 = store w2.
Proof.
  intros Hstamp Hc Hnz Hyoung Hrun Hq.
  destruct (users (store w2) !! uid) as [v|] eqn:Hv; [|done].
  injection Hstamp as Hl.
  pose proof Hrun as Hrun'. revert Hrun. unfold handle_click, bind.
  step Hgate ok wa.
  pose proof (check_subscriptions_run _ _ _ _ Hgate) as [Hsa Hea].
  destruct ok; cbn [negb].
  2: { intros [= <- <-].
       by apply (check_subscriptions_answered _ _ _ _ Hgate) in Hc; [|lia]. }
  step Hload o wb.
  pose proof (get_user_run _ _ _ _ Hload) as (Hsb & Heb & Hsome & Hqb).
  destruct o as [u|].
  2: { intros [= <- <-]. rewrite Hsa, Hv in Hqb. by specialize (Hqb ltac:(lia)). }
  specialize (Hsome u eq_refl). rewrite Hsa, Hv in Hsome. injection Hsome as <-.
  intros _.
  rewrite (handle_click_cooldown uid name t2 t1 w2 wa wb v Hgate Hload Hl Hnz Hyoung)
    in Hrun'.
  injection Hrun' as <- <-. split; [done | congruence].
Qed.

(** C4, as the code has it.  Handlers run one after the other.  After a
    rewarded click stamped with a nonzero time and with no request
    failing, and after any requests made in the meantime, with whatever
    failing during them (withdrawal requests and presses of the
    subscription button of anybody, clicks and [/start]s of other users,
    clicks of the user before the cooldown is over, but no [/start] of the
    user), a click of the user less than [CLICK_COOLDOWN] seconds after
    the rewarded one, with no request failing, is answered with the
    remaining time and changes nothing.  The balance itself is read and
    written back in two requests: [update_balance] on an existing row and
    a sum that can be sent takes two requests from the schedule, the read
    and the write of the sum, and writes nothing when the second raises. *)
Theorem second_click_in_window (rpc : database → Z → list Z) (uid : Z)
    (name1 name2 : option string) (t1 t2 : Z)
    (w w1 w2 w3 : world) (reward shown : float) (reply : click_reply) :
  handle_click uid name1 t1 w = (ClickRewarded reward shown, w1) →
  errors w1 = errors w →
  rtc (meanwhile rpc uid t1) (store w1) (store w2) →
  handle_click uid name2 t2 w2 = (reply, w3) →
  errors w3 = errors w2 →
  t1 ≠ 0 → t2 - t1 < Config.CLICK_COOLDOWN →
  reply = ClickCooldown (Config.CLICK_COOLDOWN - (t2 - t1))
  ∧ store w3 = store w2
  ∧ (∀ (who : Z) (amount : float) (d : database) (fs : list bool) (n : nat)
       (u : user),
       users d !! who = Some u →
       json_number (balance u + amount)%float = true →
       update_balance who amount (World d (false :: false :: fs) n)
       = (true, World (credited who u amount d) fs n)
       ∧ update_balance who amount (World d (false :: true :: fs) n)
         = (false, World d fs (S n))).
Proof.
  intros Hfirst Hq1 Hsteps Hsecond Hq2 Hnz Hyoung.
  destruct (rewarded_click_stamp uid name1 t1 w w1 reward shown Hfirst Hq1)
    as [Hstamp1 Hc1].
  destruct (meanwhile_steps rpc uid t1 (store w1) (store w2) Hnz Hsteps Hstamp1 Hc1)
    as [Hstamp2 Hc2].
  destruct (click_in_window uid name2 t1 t2 w2 w3 reply Hstamp2 Hc2 Hnz Hyoung
              Hsecond Hq2) as [-> ->].
  split_and!; [done | done |].
  intros who amount d fs n u Hu Hjson. unfold update_balance, get_user; run.
  rewrite Hu. cbn. rewrite Hjson. cbn.
  split; [|done]. by rewrite bool_decide_eq_true_2 by eauto.
Qed.

Lemma second_click_in_window_witness :
  (handle_click 2 (Some "bob") 1700001800
     (World (store (cmd_start 1 (Some "alice") "Alice" None 1700000900
                      (World Sample.commission_paid [] 0)).2) [] 0)).1
  = ClickCooldown 1800.
Proof.
  refine (proj1 (second_click_in_window Sample.three_active 2
                   (Some "bob") (Some "bob") 1700000000 1700001800
                   (World Sample.two_users [] 0)
                   (World Sample.commission_paid [] 0)
                   (World (store (cmd_start 1 (Some "alice") "Alice" None 1700000900
                                    (World Sample.commission_paid [] 0)).2) [] 0)
                   (handle_click 2 (Some "bob") 1700001800
                      (World (store (cmd_start 1 (Some "alice") "Alice" None
                                       1700000900
                                       (World Sample.commission_paid [] 0)).2)
                         [] 0)).2
                   0.2%float 0.2%float _
                   eq_refl eq_refl _ eq_refl eq_refl _ eq_refl)).
  - apply rtc_once. left.
    exists (Start 1 (Some "alice") "Alice" None 1700000900), [], [], 0%nat, 0%nat.
    split; [vm_compute; reflexivity | discriminate].
  - discriminate.
Defined.

(** ** The spelling of a waiting time *)

Lemma pretty_N_go_spaceless (x : N) (s : string) :
  spaceless s = true → spaceless (pretty_N_go x s) = true.
Proof.
  revert s. induction (N.lt_wf_0 x) as [x _ IH]; intros s Hs.
  assert (x = 0 ∨ 0 < x)%N as [->|Hpos] by lia.
  - by rewrite pretty_N_go_0.
  - rewrite pretty_N_go_step by done. apply IH.
    + by apply N.div_lt.
    + cbn [spaceless]. rewrite Hs. unfold pretty_N_char.
      by repeat case_match.
Qed.

Lemma pretty_Z_spaceless (z : Z) : spaceless (pretty z) = true.
Proof.
  assert (Hpos : ∀ p : positive, spaceless (pretty p) = true).
  { intros p. unfold pretty, pretty_positive, pretty, pretty_N.
    case_decide; [done|]. by apply pretty_N_go_spaceless. }
  destruct z as [|p|p]; unfold pretty, pretty_Z; [done | apply Hpos |].
  cbn [String.append spaceless]. apply Hpos.
Qed.

(** Two texts that agree are cut alike at their first blank. *)
Lemma first_blank (a b r1 r2 : string) :
  spaceless a = true → spaceless b = true →
  a +:+ String Ascii.Space r1 = b +:+ String Ascii.Space r2 → a = b ∧ r1 = r2.
Proof.
  revert b. induction a as [|c a IH]; intros [|c' b]; cbn.
  - by intros _ _ [= ->].
  - intros _ Hb [= <- _]. by cbn in Hb.
  - intros Ha _ [= -> _]. by cbn in Ha.
  - intros [_ Ha]%andb_prop [_ Hb]%andb_prop [= -> Hrest].
    by destruct (IH b Ha Hb Hrest) as [-> ->].
Qed.

Lemma pretty_first_blank (x y : Z) (r1 r2 : string) :
  pretty x +:+ String Ascii.Space r1 = pretty y +:+ String Ascii.Space r2 → x = y ∧ r1 = r2.
Proof.
  intros [Hxy Hr]%first_blank; auto using pretty_Z_spaceless.
  split; [|done]. by apply (inj pretty).
Qed.

(** X17: [format_time] spells two waiting times alike only when they are
    the same, or when both are an hour or more and agree up to their
    seconds, which the third branch drops. *)
Theorem format_time_alike (s s' : Z) :
  format_time s = format_time s'
  ↔ s = s' ∨ (3600 ≤ s ∧ 3600 ≤ s' ∧ s / 60 = s' / 60).
Proof.
  split.
  - unfold format_time.
    destruct (Z.ltb_spec s 60), (Z.ltb_spec s' 60); cbv zeta.
    + intros [Heq _]%pretty_first_blank. by left.
    + destruct (Z.ltb_spec s' 3600); by intros [_ [=]]%pretty_first_blank.
    + destruct (Z.ltb_spec s 3600); by intros [_ [=]]%pretty_first_blank.
    + destruct (Z.ltb_spec s 3600), (Z.ltb_spec s' 3600);
        intros [Hfirst Hrest]%pretty_first_blank; try by injection Hrest.
      * cbn in Hrest. injection Hrest as Hrest.
        apply pretty_first_blank in Hrest as [Hsecs _]. left.
        rewrite (Z.div_mod s 60), (Z.div_mod s' 60) by done. congruence.
      * cbn in Hrest. injection Hrest as Hrest.
        apply pretty_first_blank in Hrest as [Hmin _]. right.
        split_and!; [done..|]. clear -Hfirst Hmin. Z.to_euclidean_division_equations. lia.
  - intros [-> | (Hs & Hs' & Heq)]; [done|]. unfold format_time.
    destruct (Z.ltb_spec s 60), (Z.ltb_spec s' 60); try lia.
    destruct (Z.ltb_spec s 3600), (Z.ltb_spec s' 3600); try lia. cbv zeta.
    replace (s' / 3600) with (s / 3600) by (clear -Heq; Z.to_euclidean_division_equations; lia).
    replace (s' mod 3600 / 60) with (s mod 3600 / 60) by (clear -Heq; Z.to_euclidean_division_equations; lia).
    done.
Qed.

Lemma format_time_alike_witness : format_time 3725 = format_time 3779.
Proof.
  apply (proj2 (format_time_alike 3725 3779)). right. split_and!; [lia..|done].
Defined.

(** ** Withdrawals behind no gate *)

Lemma create_withdrawal_refused (uid : Z) (amount : float) (now : Z) (w w' : world) :
  create_withdrawal uid amount now w = (None, w') → (errors w < errors w')%nat.
Proof.
  by_schedule w; destruct (json_number amount); cbn; intros [= <-]; cbn; lia.
Qed.

(** X18: the balance and the three active referrals are the only gates of a
    withdrawal request; the subscriptions are not looked at.  A request of
    a user with a row whose balance is not below the amount and for whom
    [get_active_referrals] yields three rows or more is answered with the
    created withdrawal whenever none of its requests fails. *)
Theorem withdrawal_needs_no_subscription (rpc : database → Z → list Z)
    (uid : Z) (amount : float) (now : Z) (w w' : world) (reply : withdraw_reply)
    (u : user) :
  handle_withdraw rpc uid (Some amount) now w = (reply, w') →
  errors w' = errors w →
  users (store w) !! uid = Some u →
  (balance u <? amount)%float = false →
  3 ≤ Z.of_nat (length (rpc (store w) uid)) →
  reply = WithdrawCreated (withdrawals_seq (store w) + 1) amount.
Proof.
  intros Hrun Hquiet Hu Hbal Hthree. revert Hrun.
  unfold handle_withdraw, bind. step Hload o w1.
  apply get_user_run in Hload as (Hs1 & He1 & Hsome & Hq1).
  destruct o as [u0|].
  2: { intros [= <- <-]. specialize (Hq1 Hquiet). congruence. }
  specialize (Hsome u0 eq_refl). assert (u0 = u) as -> by congruence.
  rewrite Hbal. step Hrefs refs w2.
  apply get_user_referrals_run in Hrefs as (Hs2 & He2 & _ & Hq2).
  destruct (Z.ltb_spec refs.2 3) as [Hfew|_].
  { intros [= <- <-]. rewrite Hq2, Hs1 in Hfew by lia. lia. }
  step Hrow o w3. destruct o as [row|].
  2: { apply create_withdrawal_refused in Hrow. intros [= <- <-]. lia. }
  apply create_withdrawal_run in Hrow as (_ & -> & _ & _).
  step Hupd r4 w4. step Hlog r5 w5. intros [= <- <-]. cbn [wd_id].
  by rewrite Hs2, Hs1.
Qed.

Lemma withdrawal_needs_no_subscription_witness :
  (check_subscriptions 4 (World funded_unsubscribed [] 0)).1 = false
  ∧ (handle_withdraw Sample.three_active 4 (Some 25%float) 1700000000
       (World funded_unsubscribed [] 0)).1
    = WithdrawCreated 1 25%float.
Proof.
  split; [reflexivity|].
  refine (withdrawal_needs_no_subscription Sample.three_active 4 25%float
            1700000000 (World funded_unsubscribed [] 0)
            (handle_withdraw Sample.three_active 4 (Some 25%float) 1700000000
               (World funded_unsubscribed [] 0)).2
            _ Sample.dave eq_refl eq_refl eq_refl eq_refl _).
  vm_compute. discriminate.
Defined.

(** ** The menu behind the button *)

(** X19: the menu that follows a press of the subscription button shows the
    balance of the sender of the message the button hangs on, not the
    balance of the user who pressed it: it is the balance of the row under
    [bot_id] when the read of that row goes through and finds one, and
    [0.0] otherwise. *)
Theorem menu_after_button_shows_senders_balance (uid bot_id now : Z)
    (w w' : world) (view : menu_view) :
  handle_check_subscriptions uid bot_id now w = (view, w') →
  ∃ shown,
    view = MainMenu shown
    ∧ (shown = 0%float
       ∨ ∃ row, users (store w) !! bot_id = Some row ∧ shown = balance row)
    ∧ (users (store w) !! bot_id = None → shown = 0%float)
    ∧ (errors w' = errors w →
       shown = from_option balance 0%float (users (store w) !! bot_id)).
Proof.
  unfold handle_check_subscriptions, bind. step Hsp l w1.
  apply get_sponsors_run in Hsp as (Hs1 & He1).
  step Hmark r w2. destruct r.
  apply mark_subscribed_run in Hmark as (He2 & Hu & _).
  unfold show_main_menu, bind. step Hget o w3.
  apply get_user_run in Hget as (Hs3 & He3 & Hsome & Hq).
  intros [= <- <-]. rewrite Hu, Hs1 in Hsome, Hq.
  exists (from_option balance 0%float o). split_and!; [done | | |].
  - destruct o as [row|]; [right | by left]. exists row. auto.
  - intros Hnone. destruct o as [row|]; [|done].
    specialize (Hsome row eq_refl). congruence.
  - intros Hquiet. by rewrite Hq by lia.
Qed.

Lemma menu_after_button_shows_senders_balance_witness :
  ∃ shown,
    (handle_check_subscriptions 4 99 1700000000
       (World funded_unsubscribed [] 0)).1 = MainMenu shown
    ∧ shown = 0%float.
Proof.
  destruct (menu_after_button_shows_senders_balance 4 99 1700000000
              (World funded_unsubscribed [] 0)
              (handle_check_subscriptions 4 99 1700000000
                 (World funded_unsubscribed [] 0)).2
              (handle_check_subscriptions 4 99 1700000000
                 (World funded_unsubscribed [] 0)).1
              eq_refl) as (shown & Hview & _ & Hnone & _).
  exists shown. split; [exact Hview | exact (Hnone eq_refl)].
Defined.

(** ** A failed read of the sponsors *)

(** X20: a [get_sponsors] whose request raises answers with no sponsors.
    On it the sponsors message turns into the main menu, and a press of
    the subscription button records nothing. *)
Theorem failed_sponsor_query_reads_as_none (sender uid bot_id now : Z)
    (d : database) (fs : list bool) (n : nat) :
  get_sponsors (World d (true :: fs) n) = ([], World d fs (S n))
  ∧ show_sponsors_message sender uid (World d (true :: fs) n)
    = show_main_menu sender (World d fs (S n))
  ∧ handle_check_subscriptions uid bot_id now (World d (true :: fs) n)
    = show_main_menu bot_id (World d fs (S n))
  ∧ store (handle_check_subscriptions uid bot_id now (World d (true :: fs) n)).2
    = d.
Proof.
  split_and!; try reflexivity.
  change (handle_check_subscriptions uid bot_id now (World d (true :: fs) n))
    with (show_main_menu bot_id (World d fs (S n))).
  destruct (show_main_menu bot_id (World d fs (S n))) as [v w'] eqn:H.
  by apply show_main_menu_run in H as [H _].
Qed.
